(** * go-snowboy: hotword registration, detection routing and silence
      accumulation of [snowboy.go], as a shallow embedding.

    The Go code is translated function by function.  Mutable receiver
    state ([*Detector]) becomes explicit state passing; the external
    recognition engine (the SWIG interface [snowboydetect.SnowboyDetect])
    is an interface the development is parametric in; handler callbacks,
    engine invocations and sleeps are recorded in an event log. *)

From Stdlib Require Import ZArith Lia List Ascii String.
From Stdlib.Strings Require Import Byte.
From Stdlib Require Import DecimalString.
From Stdlib Require Import Floats.SpecFloat.
From stdpp Require Import gmap strings list fin_maps.

Local Open Scope Z_scope.

(** ** Machine integers

    [int], [int64] and [time.Duration] are 64-bit two's complement
    integers (the code is modelled for a 64-bit target).  Values are
    kept in [Z]; every arithmetic operation wraps. *)

Definition wrap64 (z : Z) : Z := (z + 2 ^ 63) mod 2 ^ 64 - 2 ^ 63.

Definition add64 (a b : Z) : Z := wrap64 (a + b).
Definition mul64 (a b : Z) : Z := wrap64 (a * b).

(** Go's [/] truncates toward zero and panics on a zero divisor, hence
    the [option]. *)
Definition div64 (a b : Z) : option Z :=
  if decide (b = 0) then None else Some (wrap64 (Z.quot a b)).

(** [time.Second] in nanoseconds. *)
Definition time_Second : Z := 1000000000.
Definition time_Millisecond : Z := 1000000.

(** The duration in nanoseconds that [runDetection] credits to a chunk
    of [len] bytes:
    [len * int(time.Second) / (numChannels * (bitDepth / 8) * sampleRate)]. *)
Definition elapse_time (len sampleRate numChannels bitDepth : Z) : option Z :=
  div64 (mul64 len time_Second)
        (mul64 (mul64 numChannels (Z.quot bitDepth 8)) sampleRate).

(** ** Models of the Go standard library functions the code calls *)

Module strings.

Fixpoint contains_byte (cutset : string) (c : ascii) : bool :=
  match cutset with
  | EmptyString => false
  | String k rest => if Ascii.eqb k c then true else contains_byte rest c
  end.

(** [strings.TrimRight(s, cutset)]: drops every trailing byte of [s]
    that occurs in [cutset] (the cutset is a set of characters, not a
    suffix).  For an ASCII cutset Go works byte by byte. *)
Fixpoint TrimRight (s cutset : string) : string :=
  match s with
  | EmptyString => EmptyString
  | String c rest =>
      match TrimRight rest cutset with
      | EmptyString =>
          if contains_byte cutset c then EmptyString
          else String c EmptyString
      | t => String c t
      end
  end.

(** [strings.Split(s, sep)] for a one-byte separator: the substrings
    between separators, always at least one. *)
Fixpoint Split (s : string) (sep : ascii) : list string :=
  match s with
  | EmptyString => [EmptyString]
  | String c rest =>
      if Ascii.eqb c sep then EmptyString :: Split rest sep
      else match Split rest sep with
           | [] => [String c EmptyString]
           | p :: ps => String c p :: ps
           end
  end.

Fixpoint HasSuffix (s suffix : string) : bool :=
  if String.eqb s suffix then true
  else match s with
       | EmptyString => false
       | String _ rest => HasSuffix rest suffix
       end.

(** [strings.TrimSuffix(s, suffix)]: [s] without the trailing
    [suffix] string, or [s] itself. *)
Definition TrimSuffix (s suffix : string) : string :=
  if HasSuffix s suffix
  then String.substring 0 (String.length s - String.length suffix) s
  else s.

(** Number of occurrences of a byte, [strings.Count] for a one-byte
    pattern. *)
Fixpoint Count (s : string) (c : ascii) : nat :=
  match s with
  | EmptyString => 0%nat
  | String k rest => ((if Ascii.eqb k c then 1 else 0) + Count rest c)%nat
  end.

End strings.

Module strconv.

(** [float32] values as IEEE-754 data: sign, mantissa and binary
    exponent ([m * 2^e]).  The conversion [float64(x)] is exact. *)
Definition float32 : Type := spec_float.

(** Round-half-even of [num / den] for positive [den]. *)
Definition round_half_even (num den : Z) : Z :=
  let q := num / den in
  let r := num mod den in
  if decide (2 * r < den) then q
  else if decide (den < 2 * r) then q + 1
  else if Z.even q then q else q + 1.

Definition decimal (n : Z) : string :=
  NilZero.string_of_uint (N.to_uint (Z.to_N n)).

(** [hundredths] is the magnitude in units of 0.01. *)
Definition fixed2 (neg : bool) (hundredths : Z) : string :=
  let frac := hundredths mod 100 in
  ((if neg then "-" else "") +:+ decimal (hundredths / 100) +:+ "."
     +:+ decimal (frac / 10) +:+ decimal (frac mod 10))%string.

(** [strconv.FormatFloat(float64(x), 'f', 2, 64)]: the exact value
    rounded half-to-even to two decimals, in fixed notation. *)
Definition FormatFloat_f2 (x : float32) : string :=
  match x with
  | S754_nan => "NaN"
  | S754_infinity false => "+Inf"
  | S754_infinity true => "-Inf"
  | S754_zero neg => fixed2 neg 0
  | S754_finite neg m e =>
      fixed2 neg
        (if decide (0 <= e) then Z.pos m * 2 ^ e * 100
         else round_half_even (Z.pos m * 100) (2 ^ (- e)))
  end%string.

End strconv.

(** ** Hotwords *)

Record Hotword := {
  Model : string;
  Sensitivity : strconv.float32;
  Name : string;
}.

(** The model-file extension, used by [NewHotword] as a cutset. *)
Definition umdl : string := ".umdl".

Definition NewHotword (model : string) (sensitivity : strconv.float32) : Hotword :=
  let name := strings.TrimRight model umdl in
  let nameParts := strings.Split name "/" in
  {| Model := model;
     Sensitivity := sensitivity;
     Name := List.last nameParts EmptyString |}.

(** 0.5 as a [float32]: [2^23 * 2^-24]. *)
Definition half : strconv.float32 := S754_finite false 8388608 (-24).

Definition NewDefaultHotword (model : string) : Hotword :=
  NewHotword model half.

(** The name derivation as the specification words it: strip the
    extension as a trailing suffix if present, split on the path
    separator, take the final segment. *)
Definition deriveName_spec (modelIdentifier : string) : string :=
  List.last (strings.Split (strings.TrimSuffix modelIdentifier umdl) "/")
    EmptyString.

(** ** Errors, handlers and observable events *)

(** Go errors are compared by identity; the package-level values are
    constructors, [errors_New] stands for any other error value. *)
Inductive error :=
| io_EOF
| NoHandler
| SnowboyLibraryError
| errors_New (msg : string).

#[global] Instance error_eq_dec : EqDecision error.
Proof. solve_decision. Defined.

(** The two variants satisfying the [Handler] interface: a value with a
    [Detected] method, and a plain function adapted by [handlerFunc].
    The number names the callee.  A callback is taken to return and to
    leave the detector alone; its invocation is what the log records. *)
Inductive Handler :=
| handlerObj (id : nat)
| handlerFunc (f : nat).

Record handlerKeyword := {
  hk_Handler : Handler;
  keyword : string;
}.

(** What a run does to the outside: [Detected(kw)] on a handler, a
    [RunDetection] call on the engine with the bytes behind the pointer
    and the sample count, [DeleteSnowboyDetect], [time.Sleep]. *)
Inductive event :=
| EvDetected (h : Handler) (kw : string)
| EvRunDetection (data : list byte) (array_length : Z)
| EvDelete
| EvSleep (d : Z).

(** ** Result codes *)

Definition snowboyResultSilence : Z := -2.
Definition snowboyResultError : Z := -1.
Definition snowboyResultNoDetection : Z := 0.

(** ** The recognition engine

    [snowboydetect.SnowboyDetect] is an opaque native object.  [R] is
    its state; mutating methods return the new state. *)
Class SnowboyDetect (R : Type) := {
  NewSnowboyDetect : string -> string -> R;
  SetSensitivity : R -> string -> R;
  SetAudioGain : R -> strconv.float32 -> R;
  RunDetection : R -> list byte -> Z -> Z * R;
  SampleRate : R -> Z;
  NumChannels : R -> Z;
  BitsPerSample : R -> Z;
}.

(** An engine that answers every detection call with the same code and
    reports a fixed audio format. *)
Definition fixed_engine (code rate channels bits : Z) : SnowboyDetect unit := {|
  NewSnowboyDetect _ _ := tt;
  SetSensitivity r _ := r;
  SetAudioGain r _ := r;
  RunDetection r _ _ := (code, r);
  SampleRate _ := rate;
  NumChannels _ := channels;
  BitsPerSample _ := bits;
|}.

(** An engine that replays a list of result codes, then reports no
    detection; 16 kHz, mono, 16 bit. *)
Definition replay_engine : SnowboyDetect (list Z) := {|
  NewSnowboyDetect _ _ := [];
  SetSensitivity r _ := r;
  SetAudioGain r _ := r;
  RunDetection r _ _ := match r with [] => (0, []) | c :: cs => (c, cs) end;
  SampleRate _ := 16000;
  NumChannels _ := 1;
  BitsPerSample _ := 16;
|}.

(** ** The audio source

    An [io.Reader] is modelled by the results of its successive [Read]
    calls: the bytes stored into the buffer ([n] is their number) and
    the error.  After the listed results the reader is at end of stream
    and answers [0, io.EOF]. *)
Record read_result := {
  rd_data : list byte;
  rd_err : option error;
}.

Definition Reader : Type := list read_result.

(** [Read(p)] stores at most [len(p)] bytes at the front of [p] and
    leaves the rest of [p] as it was. *)
Definition read_n (p data : list byte) : nat :=
  length (firstn (length p) data).

Definition read_into (p data : list byte) : list byte :=
  firstn (length p) data ++ skipn (read_n p data) p.

Section Detector.

Context {R : Type} {engine : SnowboyDetect R}.

(** [raw] is [None] for the nil interface value; [handlers] is [None]
    for the nil map. *)
Record Detector := {
  raw : option R;
  initialized : bool;
  handlers : option (gmap Z handlerKeyword);
  modelStr : string;
  sensitivityStr : string;
  silenceThreshold : Z;
  silenceElapsed : Z;
  ResourceFile : string;
  AudioGain : strconv.float32;
}.

Definition set_raw (v : option R) (d : Detector) : Detector :=
  {| raw := v; initialized := initialized d; handlers := handlers d;
     modelStr := modelStr d; sensitivityStr := sensitivityStr d;
     silenceThreshold := silenceThreshold d;
     silenceElapsed := silenceElapsed d;
     ResourceFile := ResourceFile d; AudioGain := AudioGain d |}.

Definition set_initialized (v : bool) (d : Detector) : Detector :=
  {| raw := raw d; initialized := v; handlers := handlers d;
     modelStr := modelStr d; sensitivityStr := sensitivityStr d;
     silenceThreshold := silenceThreshold d;
     silenceElapsed := silenceElapsed d;
     ResourceFile := ResourceFile d; AudioGain := AudioGain d |}.

Definition set_handlers (v : option (gmap Z handlerKeyword)) (d : Detector)
  : Detector :=
  {| raw := raw d; initialized := initialized d; handlers := v;
     modelStr := modelStr d; sensitivityStr := sensitivityStr d;
     silenceThreshold := silenceThreshold d;
     silenceElapsed := silenceElapsed d;
     ResourceFile := ResourceFile d; AudioGain := AudioGain d |}.

Definition set_modelStr (v : string) (d : Detector) : Detector :=
  {| raw := raw d; initialized := initialized d; handlers := handlers d;
     modelStr := v; sensitivityStr := sensitivityStr d;
     silenceThreshold := silenceThreshold d;
     silenceElapsed := silenceElapsed d;
     ResourceFile := ResourceFile d; AudioGain := AudioGain d |}.

Definition set_sensitivityStr (v : string) (d : Detector) : Detector :=
  {| raw := raw d; initialized := initialized d; handlers := handlers d;
     modelStr := modelStr d; sensitivityStr := v;
     silenceThreshold := silenceThreshold d;
     silenceElapsed := silenceElapsed d;
     ResourceFile := ResourceFile d; AudioGain := AudioGain d |}.

Definition set_silenceThreshold (v : Z) (d : Detector) : Detector :=
  {| raw := raw d; initialized := initialized d; handlers := handlers d;
     modelStr := modelStr d; sensitivityStr := sensitivityStr d;
     silenceThreshold := v;
     silenceElapsed := silenceElapsed d;
     ResourceFile := ResourceFile d; AudioGain := AudioGain d |}.

Definition set_silenceElapsed (v : Z) (d : Detector) : Detector :=
  {| raw := raw d; initialized := initialized d; handlers := handlers d;
     modelStr := modelStr d; sensitivityStr := sensitivityStr d;
     silenceThreshold := silenceThreshold d;
     silenceElapsed := v;
     ResourceFile := ResourceFile d; AudioGain := AudioGain d |}.

(** 1.0 as a [float32]. *)
Definition one : strconv.float32 := S754_finite false 8388608 (-23).

Definition NewDetector (resourceFile : string) : Detector :=
  {| raw := None; initialized := false; handlers := None;
     modelStr := EmptyString; sensitivityStr := EmptyString;
     silenceThreshold := 0; silenceElapsed := 0;
     ResourceFile := resourceFile; AudioGain := one |}.

(** *** Go maps: [len], lookup and store on a possibly nil map *)

Definition map_len (m : option (gmap Z handlerKeyword)) : Z :=
  match m with
  | None => 0
  | Some m => Z.of_nat (size m)
  end.

Definition map_get (m : option (gmap Z handlerKeyword)) (k : Z)
  : option handlerKeyword :=
  match m with
  | None => None
  | Some m => m !! k
  end.

(** [make] when the map is nil, as both registration functions do
    before they store. *)
Definition map_make (m : option (gmap Z handlerKeyword))
  : gmap Z handlerKeyword :=
  match m with
  | None => ∅
  | Some m => m
  end.

(** *** Registration *)

Definition Handle (hotword : Hotword) (handler : Handler) (d : Detector)
  : Detector :=
  let d :=
    if decide (0 < map_len (handlers d))
    then set_sensitivityStr (sensitivityStr d +:+ ",")
           (set_modelStr (modelStr d +:+ ",") d)
    else d in
  let d := set_modelStr (modelStr d +:+ Model hotword) d in
  let d :=
    set_sensitivityStr
      (sensitivityStr d +:+ strconv.FormatFloat_f2 (Sensitivity hotword)) d in
  let d := set_handlers (Some (map_make (handlers d))) d in
  set_handlers
    (Some (<[ map_len (handlers d) + 1 :=
              {| hk_Handler := handler; keyword := Name hotword |} ]>
             (map_make (handlers d)))) d.

Definition HandleFunc (hotword : Hotword) (handler : nat) (d : Detector)
  : Detector :=
  Handle hotword (handlerFunc handler) d.

Definition HandleSilence (threshold : Z) (handler : Handler) (d : Detector)
  : Detector :=
  let d := set_handlers (Some (map_make (handlers d))) d in
  let d := set_silenceThreshold threshold d in
  set_handlers
    (Some (<[ snowboyResultSilence :=
              {| hk_Handler := handler; keyword := "silence" |} ]>
             (map_make (handlers d)))) d.

Definition HandleSilenceFunc (threshold : Z) (handler : nat) (d : Detector)
  : Detector :=
  HandleSilence threshold (handlerFunc handler) d.

(** *** Stateful operations

    The state is the detector together with the log of observable
    events, newest last.  A computation either returns a value and a
    state or panics (nil dereference, division by zero). *)

Record state := {
  det : Detector;
  log : list event;
}.

Inductive outcome (A : Type) :=
| Ok (a : A) (s : state)
| Panic.
Global Arguments Ok {A} a s.
Global Arguments Panic {A}.

Definition M (A : Type) : Type := state -> outcome A.

Definition ret {A} (a : A) : M A := fun s => Ok a s.

Definition bind {A B} (m : M A) (k : A -> M B) : M B :=
  fun s => match m s with
           | Ok a s' => k a s'
           | Panic => Panic
           end.

Definition panic {A} : M A := fun _ => Panic.

Definition get : M Detector := fun s => Ok (det s) s.

Definition modify (f : Detector -> Detector) : M unit :=
  fun s => Ok tt {| det := f (det s); log := log s |}.

Definition emit (e : event) : M unit :=
  fun s => Ok tt {| det := det s; log := log s ++ [e] |}.

Notation "x <- m ;; k" := (bind m (fun x => k))
  (at level 100, m at next level, right associativity).
Notation "m ;;; k" := (bind m (fun _ => k))
  (at level 100, right associativity).

(** A method call on [d.raw]; the nil interface panics. *)
Definition the_raw : M R :=
  d <- get ;;
  match raw d with
  | Some r => ret r
  | None => panic
  end.

Definition Close : M (option error) :=
  d <- get ;;
  if initialized d then
    modify (set_initialized false) ;;;
    emit EvDelete ;;;
    ret None
  else ret (Some (errors_New "snowboy not initialize")).

Definition initialize : M unit :=
  d <- get ;;
  if initialized d then ret tt
  else
    modify (set_raw (Some (NewSnowboyDetect (ResourceFile d) (modelStr d)))) ;;;
    r <- the_raw ;;
    modify (set_raw (Some (SetSensitivity r (sensitivityStr d)))) ;;;
    r <- the_raw ;;
    modify (set_raw (Some (SetAudioGain r (AudioGain d)))) ;;;
    modify (set_initialized true).

Definition AudioFormat : M (Z * Z * Z) :=
  initialize ;;;
  r <- the_raw ;;
  ret (SampleRate r, NumChannels r, BitsPerSample r).

Definition call (h : handlerKeyword) : M unit :=
  emit (EvDetected (hk_Handler h) (keyword h)).

Definition route (result : Z) : M (option error) :=
  if decide (result = snowboyResultError) then ret (Some SnowboyLibraryError)
  else if decide (result <> snowboyResultNoDetection) then
    d <- get ;;
    match map_get (handlers d) result with
    | Some handlerKeyword =>
        if decide (result = snowboyResultSilence
                   /\ silenceElapsed d < silenceThreshold d)
        then ret None
        else
          modify (set_silenceElapsed 0) ;;;
          call handlerKeyword ;;;
          ret None
    | None => ret (Some NoHandler)
    end
  else ret None.

(** The value of an [int] expression whose evaluation may panic. *)
Definition eval (v : option Z) : M Z :=
  match v with
  | Some q => ret q
  | None => panic
  end.

Definition runDetection (data : list byte) : M Z :=
  let len := Z.of_nat (length data) in
  if decide (len = 0) then ret 0
  else
    r <- the_raw ;;
    let '(result, r') := RunDetection r data (Z.quot len 2) in
    emit (EvRunDetection data (Z.quot len 2)) ;;;
    modify (set_raw (Some r')) ;;;
    (if decide (result = snowboyResultSilence) then
       fmt <- AudioFormat ;;
       let '(sampleRate, numChannels, bitDepth) := fmt in
       dataElapseTime <-
         eval (elapse_time len sampleRate numChannels bitDepth) ;;
       modify (fun d =>
                 set_silenceElapsed (add64 (silenceElapsed d) dataElapseTime) d)
     else modify (set_silenceElapsed 0)) ;;;
    ret result.

(** One detection and routing pass, [d.route(d.runDetection(data))]. *)
Definition detect_and_route (data : list byte) : M (option error) :=
  result <- runDetection data ;;
  route result.

(** The body of the [for] loop of [ReadAndDetect], by recursion on the
    reads the source still has to answer. *)
Fixpoint read_loop (data : Reader) (bytes : list byte) : M (option error) :=
  match data with
  | [] => detect_and_route bytes
  | rd :: rest =>
      let n := read_n bytes (rd_data rd) in
      let bytes := read_into bytes (rd_data rd) in
      match rd_err rd with
      | Some err =>
          if decide (err = io_EOF) then detect_and_route bytes
          else ret (Some err)
      | None =>
          if decide (n = 0%nat) then
            emit (EvSleep (300 * time_Millisecond)) ;;;
            read_loop rest bytes
          else
            err <- detect_and_route bytes ;;
            match err with
            | Some e => ret (Some e)
            | None => read_loop rest bytes
            end
      end
  end.

Definition ReadAndDetect (data : Reader) : M (option error) :=
  initialize ;;;
  read_loop data (repeat x00 2048).

End Detector.

Arguments Detector R : clear implicits.
Arguments state R : clear implicits.

(** The handler invocations recorded in a log, oldest first. *)
Fixpoint calls (l : list event) : list (Handler * string) :=
  match l with
  | [] => []
  | EvDetected h kw :: l => (h, kw) :: calls l
  | _ :: l => calls l
  end.

(** The detection calls that reached the engine, oldest first. *)
Fixpoint engine_calls (l : list event) : list (list byte * Z) :=
  match l with
  | [] => []
  | EvRunDetection data n :: l => (data, n) :: engine_calls l
  | _ :: l => engine_calls l
  end.

(** ** Predicates on engines, computations and detectors *)

Section Predicates.

Context {R : Type} {engine : SnowboyDetect R}.

(** The engine in state [r] answers the chunk [data] with the silence
    code, moves to [r'], and the audio format then makes the chunk
    last [dt] nanoseconds. *)
Definition silence_lasting (dt : Z) (r : R) (data : list byte) (r' : R)
  : Prop :=
  data <> []
  /\ RunDetection r data (Z.quot (Z.of_nat (length data)) 2)
     = (snowboyResultSilence, r')
  /\ elapse_time (Z.of_nat (length data))
       (SampleRate r') (NumChannels r') (BitsPerSample r') = Some dt.

(** Every returning run of [m] relates the state before to the state
    after. *)
Definition preserves {A : Type} (rel : relation (state R)) (m : M A) : Prop :=
  forall s a s', m s = Ok a s' -> rel s s'.

(** The two joined configuration strings are as they were. *)
Definition same_config (s s' : state R) : Prop :=
  modelStr (det s') = modelStr (det s)
  /\ sensitivityStr (det s') = sensitivityStr (det s).

Definition keeps_config {A : Type} (m : M A) : Prop :=
  preserves same_config m.

(** A detection call that handed the engine 2048 bytes as 1024
    samples. *)
Definition whole_buffer_call (c : list byte * Z) : Prop :=
  length c.1 = 2048%nat /\ c.2 = 1024.

(** The log has grown, and every detection call added to it is of that
    kind. *)
Definition whole_buffers_only (s s' : state R) : Prop :=
  exists l', log s' = log s ++ l'
             /\ Forall whole_buffer_call (engine_calls l').

(** The handler map binds exactly the codes [1..n]: what registering
    [n] hotwords and nothing else produces. *)
Definition dense (d : Detector R) (n : nat) : Prop :=
  map_len (handlers d) = Z.of_nat n
  /\ forall k, is_Some (map_get (handlers d) k) <-> 1 <= k <= Z.of_nat n.

(** Successive [Handle] calls, first registration first. *)
Fixpoint register_all (hs : list (Hotword * Handler)) (d : Detector R)
  : Detector R :=
  match hs with
  | [] => d
  | (hotword, handler) :: rest => register_all rest (Handle hotword handler d)
  end.

(** The separator [Handle] writes before a new entry. *)
Definition separator (d : Detector R) : string :=
  if decide (0 < map_len (handlers d)) then "," else "".

(** The joined strings of [n] registered hotwords: empty for none,
    [n] comma-separated fields otherwise. *)
Definition joined (d : Detector R) (n : nat) : Prop :=
  match n with
  | O => modelStr d = EmptyString /\ sensitivityStr d = EmptyString
  | S _ => (strings.Count (modelStr d) "," + 1 = n)%nat
           /\ (strings.Count (sensitivityStr d) "," + 1 = n)%nat
  end.

End Predicates.

(** ** Concrete detectors and engines the properties are tried on *)

(** An engine that reports silence on every chunk; with its format 2048
    bytes last half a second. *)
Definition half_second_silence : SnowboyDetect unit :=
  fixed_engine snowboyResultSilence 2048 1 16.

Definition fresh (d : Detector unit) : state unit :=
  {| det := d; log := [] |}.

Definition one_hotword : Detector unit :=
  Handle (NewDefaultHotword "resources/alexa.umdl") (handlerObj 1)
    (NewDetector "resources/common.res").

Definition initialized_detector : Detector unit :=
  set_initialized true (set_raw (Some tt) one_hotword).

(** One hotword and a silence handler with a threshold of two seconds,
    registered in the documented order. *)
Definition registered {R : Type} : Detector R :=
  HandleSilence (2 * time_Second) (handlerObj 2)
    (Handle (NewDefaultHotword "resources/alexa.umdl") (handlerObj 1)
       (NewDetector "resources/common.res")).

(** The same detector once its engine [r] exists, with [elapsed]
    nanoseconds of silence accumulated. *)
Definition listening {R : Type} (r : R) (elapsed : Z) : Detector R :=
  set_silenceElapsed elapsed
    (set_initialized true (set_raw (Some r) registered)).

(** The buffer of [ReadAndDetect] before the first read. *)
Definition zero_chunk : list byte := repeat x00 2048.

(** ** Further predicates and traces *)

(** The last byte of a string, if any. *)
Fixpoint last_byte (s : string) : option ascii :=
  match s with
  | EmptyString => None
  | String c rest =>
      match rest with
      | EmptyString => Some c
      | _ => last_byte rest
      end
  end.

(** The contents of the buffer of [ReadAndDetect] at its successive
    detection passes when every read succeeds with data: the buffer
    after each read, then the buffer as the end of stream finds it. *)
Fixpoint trail (data : Reader) (bytes : list byte) : list (list byte) :=
  match data with
  | [] => [bytes]
  | rd :: rest =>
      let bytes := read_into bytes (rd_data rd) in
      bytes :: trail rest bytes
  end.

Section Behaviours.

Context {R : Type} {engine : SnowboyDetect R}.

(** Successive passes [d.route(d.runDetection(chunk))] over the given
    chunks, ended by the first error, as the loop of [ReadAndDetect]
    chains them. *)
Fixpoint passes (chunks : list (list byte)) : M (option error) :=
  match chunks with
  | [] => ret None
  | chunk :: rest =>
      bind (detect_and_route chunk)
           (fun err => match err with
                       | Some e => ret (Some e)
                       | None => passes rest
                       end)
  end.

(** The engine answers each chunk of the list with the silence code,
    every chunk lasting [dt] nanoseconds, and ends in [r']. *)
Fixpoint silent_run (dt : Z) (r : R) (chunks : list (list byte)) (r' : R)
  : Prop :=
  match chunks with
  | [] => r = r'
  | chunk :: rest =>
      exists r1, silence_lasting dt r chunk r1 /\ silent_run dt r1 rest r'
  end.

(** A detector marked initialized holds an engine. *)
Definition engine_ready (s : state R) : Prop :=
  initialized (det s) = true -> raw (det s) <> None.

(** The divisor of the duration computation is not zero for the format
    the engine reports. *)
Definition sound_format (r : R) : Prop :=
  mul64 (mul64 (NumChannels r) (Z.quot (BitsPerSample r) 8)) (SampleRate r)
  <> 0.

(** Once initialized, still initialized. *)
Definition stays_initialized (s s' : state R) : Prop :=
  initialized (det s) = true -> initialized (det s') = true.

(** Once an engine is held, an engine is held. *)
Definition keeps_engine (s s' : state R) : Prop :=
  raw (det s) <> None -> raw (det s') <> None.

(** The handler map after a silence registration followed by [n]
    hotwords: the silence code and the codes [2..n+1]. *)
Definition shifted (d : Detector R) (n : nat) : Prop :=
  map_len (handlers d) = Z.of_nat n + 1
  /\ forall k, is_Some (map_get (handlers d) k)
               <-> k = snowboyResultSilence \/ 2 <= k <= Z.of_nat n + 1.

(** The engine [initialize] builds from the detector's configuration. *)
Definition configured (d : Detector R) : R :=
  SetAudioGain
    (SetSensitivity (NewSnowboyDetect (ResourceFile d) (modelStr d))
       (sensitivityStr d))
    (AudioGain d).



(** No detection call was added to the log. *)
Definition same_engine_calls (s s' : state R) : Prop :=
  engine_calls (log s') = engine_calls (log s).

End Behaviours.

(** An engine whose state is the list of the strings it was configured
    with; it reports no detection, 16 kHz, mono, 16 bit. *)
Definition recording_engine : SnowboyDetect (list string) := {|
  NewSnowboyDetect resource models := [resource; models];
  SetSensitivity r sensitivities := r ++ [sensitivities];
  SetAudioGain r gain := r ++ [strconv.FormatFloat_f2 gain];
  RunDetection r _ _ := (0, r);
  SampleRate _ := 16000;
  NumChannels _ := 1;
  BitsPerSample _ := 16;
|}.

(** One hotword registered, nothing initialized, for any engine state
    type. *)
Definition unused {R : Type} : state R :=
  {| det := Handle (NewDefaultHotword "resources/alexa.umdl") (handlerObj 1)
              (NewDetector "resources/common.res");
     log := [] |}.

(** Three hotwords with their handlers, in registration order. *)
Definition three_hotwords : list (Hotword * Handler) :=
  [ (NewDefaultHotword "resources/alexa.umdl", handlerObj 1);
    (NewDefaultHotword "resources/snowboy.umdl", handlerFunc 2);
    (NewHotword "resources/jarvis.umdl" half, handlerObj 3) ].

(** * Properties *)

Ltac unfold_m :=
  unfold detect_and_route, AudioFormat, initialize, Close, call, eval, the_raw,
    bind, ret, get, modify, emit, panic in *.

(** ** Routing *)

Section Routing.

Context {R : Type} {engine : SnowboyDetect R}.
Implicit Types (s : state R) (d : Detector R).


Lemma route_no_detection s :
  route snowboyResultNoDetection s = Ok None s.
Proof. reflexivity. Qed.

Lemma route_unbound s result :
  result <> snowboyResultError ->
  result <> snowboyResultNoDetection ->
  map_get (handlers (det s)) result = None ->
  route result s = Ok (Some NoHandler) s.
Proof.
  intros He Hn Hget. unfold route.
  destruct (decide (result = snowboyResultError)) as [|_]; [done|].
  destruct (decide (result <> snowboyResultNoDetection)) as [_|]; [|done].
  unfold_m. by rewrite Hget.
Qed.

Lemma route_silence_suppressed s hk :
  map_get (handlers (det s)) snowboyResultSilence = Some hk ->
  silenceElapsed (det s) < silenceThreshold (det s) ->
  route snowboyResultSilence s = Ok None s.
Proof.
  intros Hget Hlt. unfold route. simpl. unfold_m. rewrite Hget.
  destruct (decide _) as [_|Hn]; [done|]. destruct Hn. by split.
Qed.

(** A bound result that is not a suppressed silence resets the
    accumulator and calls the handler with its keyword. *)
Lemma route_fires s result hk :
  result <> snowboyResultError ->
  result <> snowboyResultNoDetection ->
  map_get (handlers (det s)) result = Some hk ->
  ~ (result = snowboyResultSilence
     /\ silenceElapsed (det s) < silenceThreshold (det s)) ->
  route result s =
    Ok None {| det := set_silenceElapsed 0 (det s);
               log := log s ++ [EvDetected (hk_Handler hk) (keyword hk)] |}.
Proof.
  intros He Hn Hget Hfire. unfold route.
  destruct (decide (result = snowboyResultError)) as [|_]; [done|].
  destruct (decide (result <> snowboyResultNoDetection)) as [_|]; [|done].
  unfold_m. rewrite Hget. by destruct (decide _).
Qed.

(** [route] never panics, and it either leaves the state as it is or
    resets the accumulator and logs exactly one handler call. *)
Lemma route_cases s result :
  exists e,
    route result s = Ok e s
    \/ (e = None /\ exists hk,
          map_get (handlers (det s)) result = Some hk
          /\ route result s =
               Ok None {| det := set_silenceElapsed 0 (det s);
                          log := log s ++ [EvDetected (hk_Handler hk) (keyword hk)] |}).
Proof.
  unfold route.
  destruct (decide (result = snowboyResultError)); [eauto|].
  destruct (decide (result <> snowboyResultNoDetection)); [|eauto].
  unfold_m. destruct (map_get _ _) as [hk|] eqn:Hget; [|eauto].
  destruct (decide _); [eauto|].
  exists None. right. eauto.
Qed.

(** C7: a positive result code without a handler, and a silence result
    when no silence handler is registered, make [route] return
    [NoHandler] (the state is left as it was, nothing is called); the
    engine-error code -1 makes it return [SnowboyLibraryError]. *)
Theorem route_reports_unbound_results s :
  (forall K, 0 < K -> map_get (handlers (det s)) K = None ->
             route K s = Ok (Some NoHandler) s)
  /\ (map_get (handlers (det s)) snowboyResultSilence = None ->
      route snowboyResultSilence s = Ok (Some NoHandler) s)
  /\ route snowboyResultError s = Ok (Some SnowboyLibraryError) s.
Proof.
  repeat split.
  - intros K HK Hget. apply route_unbound; [| |done];
      unfold snowboyResultError, snowboyResultNoDetection; lia.
  - intros Hget. by apply route_unbound.
Qed.

End Routing.

Lemma route_reports_unbound_results_witness :
  @route unit 2 (fresh one_hotword)
    = Ok (Some NoHandler) (fresh one_hotword)
  /\ @route unit snowboyResultSilence (fresh one_hotword)
     = Ok (Some NoHandler) (fresh one_hotword).
Proof.
  destruct (@route_reports_unbound_results unit (fresh one_hotword)) as (Hpos & Hsil & _).
  split; [apply Hpos; [lia | reflexivity] | apply Hsil; reflexivity].
Defined.

(** ** Lifecycle *)

Section Lifecycle.

Context {R : Type} {engine : SnowboyDetect R}.
Implicit Types (s : state R) (d : Detector R).

Lemma Close_uninitialized s :
  initialized (det s) = false ->
  Close s = Ok (Some (errors_New "snowboy not initialize")) s.
Proof. intros H. unfold_m. by rewrite H. Qed.

Lemma Close_initialized s :
  initialized (det s) = true ->
  Close s = Ok None {| det := set_initialized false (det s);
                       log := log s ++ [EvDelete] |}.
Proof. intros H. unfold_m. by rewrite H. Qed.

Lemma Handle_initialized hotword handler d :
  initialized (Handle hotword handler d) = initialized d.
Proof. unfold Handle. by destruct (decide _). Qed.

Lemma HandleSilence_initialized threshold handler d :
  initialized (HandleSilence threshold handler d) = initialized d.
Proof. reflexivity. Qed.

(** C8: [Close] on a detector that was never initialized (a new
    detector, or any state whose [initialized] flag is off) returns an
    error and changes nothing; the first [Close] on an initialized
    detector returns nil, releases the engine and clears the flag,
    and a second [Close] right after it returns an error. *)
Theorem Close_lifecycle :
  (forall resourceFile l,
      let s : state R := {| det := NewDetector resourceFile; log := l |} in
      exists e, Close s = Ok (Some e) s)
  /\ (forall s, initialized (det s) = false ->
                exists e, Close s = Ok (Some e) s)
  /\ (forall s, initialized (det s) = true ->
                exists s', Close s = Ok None s'
                           /\ initialized (det s') = false
                           /\ log s' = log s ++ [EvDelete]
                           /\ exists e, Close s' = Ok (Some e) s').
Proof.
  split; [|split].
  - intros. eexists. by apply Close_uninitialized.
  - intros s H. eexists. by apply Close_uninitialized.
  - intros s H. eexists. split; [by apply Close_initialized|].
    repeat split. eexists. by apply Close_uninitialized.
Qed.

End Lifecycle.

Lemma Close_lifecycle_witness :
  (exists e, @Close unit (fresh one_hotword) = Ok (Some e) (fresh one_hotword))
  /\ (exists s', @Close unit (fresh initialized_detector) = Ok None s'
                 /\ initialized (det s') = false
                 /\ log s' = [EvDelete]
                 /\ exists e, Close s' = Ok (Some e) s').
Proof.
  destruct (@Close_lifecycle unit) as (_ & Hnever & Honce).
  split; [apply Hnever; reflexivity | apply Honce; reflexivity].
Defined.

(** ** Detection and silence accumulation *)

Section Detection.

Context {R : Type} {engine : SnowboyDetect R}.
Implicit Types (s : state R) (d : Detector R).

Lemma length_zero_nil (data : list byte) :
  Z.of_nat (length data) = 0 <-> data = [].
Proof. destruct data; simpl; split; intros; (done || lia). Qed.

Lemma runDetection_empty s : runDetection [] s = Ok 0 s.
Proof. reflexivity. Qed.

Lemma runDetection_other s data r result r' :
  data <> [] ->
  raw (det s) = Some r ->
  RunDetection r data (Z.quot (Z.of_nat (length data)) 2) = (result, r') ->
  result <> snowboyResultSilence ->
  runDetection data s =
    Ok result
       {| det := set_silenceElapsed 0 (set_raw (Some r') (det s));
          log := log s
                 ++ [EvRunDetection data (Z.quot (Z.of_nat (length data)) 2)] |}.
Proof.
  intros Hne Hraw Hrun Hres. unfold runDetection.
  destruct (decide _) as [H0|_]; [by apply length_zero_nil in H0|].
  unfold_m. rewrite Hraw, Hrun. simpl.
  by destruct (decide (result = snowboyResultSilence)).
Qed.

Lemma runDetection_silence s data r r' dt :
  raw (det s) = Some r ->
  initialized (det s) = true ->
  silence_lasting dt r data r' ->
  runDetection data s =
    Ok snowboyResultSilence
       {| det := set_silenceElapsed (add64 (silenceElapsed (det s)) dt)
                   (set_raw (Some r') (det s));
          log := log s
                 ++ [EvRunDetection data (Z.quot (Z.of_nat (length data)) 2)] |}.
Proof.
  intros Hraw Hinit (Hne & Hrun & Hdt). unfold runDetection.
  destruct (decide _) as [H0|_]; [by apply length_zero_nil in H0|].
  unfold_m. rewrite Hraw, Hrun. simpl. rewrite Hinit. simpl.
  by rewrite Hdt.
Qed.

(** What a returning [runDetection] did to the accumulator. *)
Lemma runDetection_elapsed s data result s' :
  runDetection data s = Ok result s' ->
  (data = [] /\ result = 0 /\ s' = s)
  \/ (data <> [] /\ result <> snowboyResultSilence
      /\ silenceElapsed (det s') = 0)
  \/ (data <> [] /\ result = snowboyResultSilence
      /\ exists r' dt,
          raw (det s') = Some r'
          /\ elapse_time (Z.of_nat (length data))
               (SampleRate r') (NumChannels r') (BitsPerSample r') = Some dt
          /\ silenceElapsed (det s')
             = add64 (silenceElapsed (det s)) dt).
Proof.
  intros Hrun. unfold runDetection in Hrun.
  destruct (decide _) as [H0|Hn0].
  { apply length_zero_nil in H0. injection Hrun as <- <-. by left. }
  assert (data <> []) as Hne by (by rewrite <- length_zero_nil).
  right. revert Hrun. unfold_m.
  destruct (raw (det s)) as [r|]; [|done].
  destruct (RunDetection _ _ _) as [res r']. simpl.
  destruct (decide (res = snowboyResultSilence)) as [->|Hres].
  - simpl. destruct (initialized (det s)); simpl;
      (destruct (elapse_time _ _ _ _) as [dt|] eqn:Hdt; [|done]);
      intros [= <- <-]; right; (split; [done|]); (split; [done|]);
      eexists _, dt; simpl; eauto.
  - intros [= <- <-]. left. by simpl.
Qed.

Lemma calls_app (l1 l2 : list event) :
  calls (l1 ++ l2) = calls l1 ++ calls l2.
Proof.
  induction l1 as [|[] l1 IH]; simpl; by rewrite ?IH.
Qed.

(** A silence chunk that keeps the accumulator under the threshold:
    the duration is credited, nothing is called. *)
Lemma detect_silence_below s data r r' dt hk :
  raw (det s) = Some r ->
  initialized (det s) = true ->
  silence_lasting dt r data r' ->
  map_get (handlers (det s)) snowboyResultSilence = Some hk ->
  add64 (silenceElapsed (det s)) dt < silenceThreshold (det s) ->
  detect_and_route data s =
    Ok None
       {| det := set_silenceElapsed (add64 (silenceElapsed (det s)) dt)
                   (set_raw (Some r') (det s));
          log := log s
                 ++ [EvRunDetection data (Z.quot (Z.of_nat (length data)) 2)] |}.
Proof.
  intros Hraw Hinit Hsil Hget Hlt. unfold detect_and_route, bind.
  rewrite (runDetection_silence _ _ _ _ _ Hraw Hinit Hsil).
  by apply route_silence_suppressed with hk.
Qed.

(** A silence chunk that brings the accumulator to the threshold: the
    silence handler is called and the accumulator starts again. *)
Lemma detect_silence_reached s data r r' dt hk :
  raw (det s) = Some r ->
  initialized (det s) = true ->
  silence_lasting dt r data r' ->
  map_get (handlers (det s)) snowboyResultSilence = Some hk ->
  silenceThreshold (det s) <= add64 (silenceElapsed (det s)) dt ->
  detect_and_route data s =
    Ok None
       {| det := set_silenceElapsed 0 (set_raw (Some r') (det s));
          log := log s
                 ++ [EvRunDetection data (Z.quot (Z.of_nat (length data)) 2);
                     EvDetected (hk_Handler hk) (keyword hk)] |}.
Proof.
  intros Hraw Hinit Hsil Hget Hge. unfold detect_and_route, bind.
  rewrite (runDetection_silence _ _ _ _ _ Hraw Hinit Hsil).
  rewrite (route_fires _ _ hk); [|done|done|done|simpl; lia].
  simpl. by rewrite <- app_assoc.
Qed.

(** C2: with a silence handler registered, a threshold of two seconds
    and an empty accumulator, four consecutive chunks that the engine
    reports as silence and that last half a second each are routed
    without error; the first three call no handler, the fourth calls
    the silence handler (once, with its keyword) and leaves
    [silenceElapsed] at zero.  In general [route] suppresses a silence
    result while the accumulator is below the threshold: no call, no
    error, no change. *)
Theorem silence_handler_fires_on_fourth_chunk
    d l hk r0 r1 r2 r3 r4 (c1 c2 c3 c4 : list byte) :
  raw d = Some r0 ->
  initialized d = true ->
  map_get (handlers d) snowboyResultSilence = Some hk ->
  silenceThreshold d = 2 * time_Second ->
  silenceElapsed d = 0 ->
  silence_lasting (time_Second / 2) r0 c1 r1 ->
  silence_lasting (time_Second / 2) r1 c2 r2 ->
  silence_lasting (time_Second / 2) r2 c3 r3 ->
  silence_lasting (time_Second / 2) r3 c4 r4 ->
  (exists s1 s2 s3 s4,
      detect_and_route c1 {| det := d; log := l |} = Ok None s1
      /\ detect_and_route c2 s1 = Ok None s2
      /\ detect_and_route c3 s2 = Ok None s3
      /\ detect_and_route c4 s3 = Ok None s4
      /\ calls (log s1) = calls l
      /\ calls (log s2) = calls l
      /\ calls (log s3) = calls l
      /\ calls (log s4) = calls l ++ [(hk_Handler hk, keyword hk)]
      /\ silenceElapsed (det s4) = 0)
  /\ (forall s hk',
        map_get (handlers (det s)) snowboyResultSilence = Some hk' ->
        silenceElapsed (det s) < silenceThreshold (det s) ->
        route snowboyResultSilence s = Ok None s).
Proof.
  intros Hraw Hinit Hget Hthr H0 Hc1 Hc2 Hc3 Hc4.
  split; [|intros s hk'; apply route_silence_suppressed].
  do 4 eexists.
  split.
  { eapply (detect_silence_below _ c1); simpl; eauto.
    rewrite H0, Hthr. by vm_compute. }
  split.
  { eapply (detect_silence_below _ c2); simpl; eauto.
    rewrite H0, Hthr. by vm_compute. }
  split.
  { eapply (detect_silence_below _ c3); simpl; eauto.
    rewrite H0, Hthr. by vm_compute. }
  split.
  { eapply (detect_silence_reached _ c4); simpl; eauto.
    rewrite H0, Hthr. by vm_compute. }
  simpl. rewrite !calls_app. simpl. rewrite !app_nil_r. done.
Qed.

(** C6, as the code has it: a non-empty chunk whose detection result
    is not the silence code leaves [silenceElapsed] at zero, after
    [runDetection] and still after [route]; when the result is 0
    [route] returns nil and changes nothing, so no handler is called.
    In every state [route 0] returns nil without any effect. *)
Theorem non_silence_resets_elapsed s data result s1 :
  data <> [] ->
  runDetection data s = Ok result s1 ->
  result <> snowboyResultSilence ->
  silenceElapsed (det s1) = 0
  /\ (exists e s2, route result s1 = Ok e s2
                  /\ silenceElapsed (det s2) = 0
                  /\ (result = snowboyResultNoDetection ->
                      e = None /\ s2 = s1))
  /\ (forall s0 : state R, route snowboyResultNoDetection s0 = Ok None s0).
Proof.
  intros Hne Hrun Hres.
  destruct (runDetection_elapsed _ _ _ _ Hrun)
    as [(-> & _)|[(_ & _ & H0)|(_ & -> & _)]]; [done| |done].
  split; [done|]. split; [|done].
  destruct (route_cases s1 result) as (e & [Hr|(-> & hk & Hget & Hr)]).
  - exists e, s1. split; [done|]. split; [done|].
    intros ->. rewrite route_no_detection in Hr. split; congruence.
  - eexists None, _. split; [exact Hr|]. split; [done|].
    intros ->. rewrite route_no_detection in Hr. split; congruence.
Qed.

(** C10: [route] never panics and never increases [silenceElapsed]:
    the field is unchanged or zero afterwards.  [runDetection] leaves
    it unchanged or zero whenever its result is not the silence code,
    and on the silence code adds the duration computed from the chunk
    length and the engine's audio format. *)
Theorem route_never_accumulates s result :
  (exists e s', route result s = Ok e s'
                /\ (silenceElapsed (det s') = silenceElapsed (det s)
                    \/ silenceElapsed (det s') = 0))
  /\ (forall data r s',
        runDetection data s = Ok r s' ->
        r <> snowboyResultSilence ->
        silenceElapsed (det s') = silenceElapsed (det s)
        \/ silenceElapsed (det s') = 0)
  /\ (forall data s',
        runDetection data s = Ok snowboyResultSilence s' ->
        exists r' dt,
          raw (det s') = Some r'
          /\ elapse_time (Z.of_nat (length data))
               (SampleRate r') (NumChannels r') (BitsPerSample r') = Some dt
          /\ silenceElapsed (det s') = add64 (silenceElapsed (det s)) dt).
Proof.
  split; [|split].
  - destruct (route_cases s result) as (e & [Hr|(-> & hk & _ & Hr)]).
    + exists e, s. auto.
    + eexists None, _. split; [exact Hr|]. by right.
  - intros data r s' Hrun Hr.
    destruct (runDetection_elapsed _ _ _ _ Hrun)
      as [(_ & _ & ->)|[(_ & _ & H0)|(_ & -> & _)]]; auto. done.
  - intros data s' Hrun.
    destruct (runDetection_elapsed _ _ _ _ Hrun)
      as [(_ & Habs & _)|[(_ & Habs & _)|(_ & _ & H)]]; done.
Qed.

End Detection.

Lemma half_second_chunk :
  @silence_lasting unit half_second_silence (time_Second / 2) tt zero_chunk tt.
Proof.
  split; [by vm_compute|]. split; vm_compute; reflexivity.
Defined.

Lemma silence_handler_fires_on_fourth_chunk_witness :
  exists s1 s2 s3 s4,
    @detect_and_route unit half_second_silence zero_chunk
      {| det := listening tt 0; log := [] |} = Ok None s1
    /\ @detect_and_route unit half_second_silence zero_chunk s1 = Ok None s2
    /\ @detect_and_route unit half_second_silence zero_chunk s2 = Ok None s3
    /\ @detect_and_route unit half_second_silence zero_chunk s3 = Ok None s4
    /\ calls (log s1) = []
    /\ calls (log s2) = []
    /\ calls (log s3) = []
    /\ calls (log s4) = [(handlerObj 2, "silence"%string)]
    /\ silenceElapsed (det s4) = 0.
Proof.
  refine (proj1 (@silence_handler_fires_on_fourth_chunk unit half_second_silence
                   (listening tt 0) []
                   {| hk_Handler := handlerObj 2; keyword := "silence" |}
                   tt tt tt tt tt zero_chunk zero_chunk zero_chunk zero_chunk
                   _ _ _ _ _ _ _ _ _));
    try reflexivity; apply half_second_chunk.
Defined.

Lemma non_silence_resets_elapsed_witness :
  let s1 : state (list Z) :=
    {| det := listening [] 0; log := [EvRunDetection [x00; x00] 1] |} in
  @runDetection _ replay_engine [x00; x00]
    {| det := listening [1] 1500000000; log := [] |} = Ok 1 s1
  /\ silenceElapsed (det s1) = 0
  /\ exists e s2, route 1 s1 = Ok e s2 /\ silenceElapsed (det s2) = 0.
Proof.
  intros s1.
  assert (@runDetection _ replay_engine [x00; x00]
            {| det := listening [1] 1500000000; log := [] |} = Ok 1 s1)
    as Hrun by reflexivity.
  split; [exact Hrun|].
  destruct (@non_silence_resets_elapsed _ replay_engine
              {| det := listening [1] 1500000000; log := [] |}
              [x00; x00] 1 s1)
    as (H0 & (e & s2 & Hr & H2 & _) & _);
    [discriminate | exact Hrun | discriminate |].
  split; [exact H0|]. exists e, s2. split; [exact Hr | exact H2].
Defined.

(** C6 as stated fails on the empty chunk: [runDetection] returns 0
    before it reaches the reset, so the accumulated 1.5 s survive. *)
Lemma empty_chunk_keeps_elapsed :
  let s : state unit := {| det := listening tt 1500000000; log := [] |} in
  @runDetection unit half_second_silence [] s = Ok 0 s
  /\ @detect_and_route unit half_second_silence [] s = Ok None s
  /\ silenceElapsed (det s) = 1500000000
  /\ ~ (forall (s0 s1 : state unit) data result,
          @runDetection unit half_second_silence data s0 = Ok result s1 ->
          result <> snowboyResultSilence ->
          silenceElapsed (det s1) = 0).
Proof.
  intros s. repeat split.
  intros Hall. specialize (Hall s s [] 0 eq_refl). discriminate Hall.
  discriminate.
Qed.

Lemma route_never_accumulates_witness :
  let s : state unit := {| det := listening tt 1000000000; log := [] |} in
  (silenceElapsed (det s) = silenceElapsed (det s)
   \/ silenceElapsed (det s) = 0)
  /\ exists s' r' dt,
      @runDetection unit half_second_silence zero_chunk s
        = Ok snowboyResultSilence s'
      /\ raw (det s') = Some r'
      /\ @elapse_time 2048 (@SampleRate _ half_second_silence r')
           (@NumChannels _ half_second_silence r')
           (@BitsPerSample _ half_second_silence r') = Some dt
      /\ silenceElapsed (det s') = add64 1000000000 dt.
Proof.
  intros s.
  destruct (@route_never_accumulates unit half_second_silence s 0)
    as (_ & Hother & Hsil).
  split; [exact (Hother [] 0 s eq_refl ltac:(discriminate))|].
  eexists.
  destruct (Hsil zero_chunk _ eq_refl) as (r' & dt & Hraw & Hdt & Hel).
  exists r', dt. split; [reflexivity|]. split; [exact Hraw|].
  split; [exact Hdt | exact Hel].
Defined.

(** ** Relations every stateful operation preserves *)

Section Preserves.

Context {R : Type} (rel : relation (state R)) `{!PreOrder rel}.

Lemma preserves_ret {A} (a : A) : preserves rel (@ret R A a).
Proof. intros s a' s' [= <- <-]. done. Qed.

Lemma preserves_panic {A} : preserves rel (@panic R A).
Proof. intros s a s' [=]. Qed.

Lemma preserves_get : preserves rel (@get R).
Proof. intros s a s' [= <- <-]. done. Qed.

Lemma preserves_bind {A B} (m : @M R A) (k : A -> @M R B) :
  preserves rel m -> (forall a, preserves rel (k a)) ->
  preserves rel (bind m k).
Proof.
  intros Hm Hk s b s'. unfold bind.
  destruct (m s) as [a s1|] eqn:Hms; [|done].
  intros Hks. transitivity s1; [exact (Hm _ _ _ Hms)|].
  exact (Hk a _ _ _ Hks).
Qed.

Lemma preserves_modify (f : Detector R -> Detector R) :
  (forall s, rel s {| det := f (det s); log := log s |}) ->
  preserves rel (modify f).
Proof. intros Hf s a s' [= <- <-]. apply Hf. Qed.

Lemma preserves_emit e :
  (forall s, rel s {| det := det s; log := log s ++ [e] |}) ->
  preserves rel (@emit R e).
Proof. intros He s a s' [= <- <-]. apply He. Qed.

Lemma preserves_the_raw : preserves rel (@the_raw R).
Proof.
  apply preserves_bind; [apply preserves_get|]. intros d.
  destruct (raw d); [apply preserves_ret | apply preserves_panic].
Qed.

End Preserves.

Ltac preserves_step :=
  lazymatch goal with
  | |- preserves _ (ret _) => apply preserves_ret
  | |- preserves _ panic => apply preserves_panic
  | |- preserves _ get => apply preserves_get
  | |- preserves _ the_raw => apply preserves_the_raw
  | |- preserves _ (bind _ _) => apply preserves_bind; intros
  | |- preserves _ (if ?b then _ else _) => destruct b
  | |- preserves _ (match ?o with Some _ => _ | None => _ end) =>
      destruct o
  end.

(** ** Registration *)

Section Registration.

Context {R : Type} {engine : SnowboyDetect R}.
Implicit Types (s : state R) (d : Detector R).

Lemma append_empty_r (a : string) : a +:+ "" = a.
Proof.
  induction a as [|c a IH]; [done|].
  change (String c (a +:+ "") = String c a). by rewrite IH.
Qed.

Lemma Handle_modelStr hotword handler d :
  modelStr (Handle hotword handler d)
  = (modelStr d +:+ separator d) +:+ Model hotword.
Proof.
  unfold Handle, separator. destruct (decide _); simpl; [done|].
  by rewrite append_empty_r.
Qed.

Lemma Handle_sensitivityStr hotword handler d :
  sensitivityStr (Handle hotword handler d)
  = (sensitivityStr d +:+ separator d)
    +:+ strconv.FormatFloat_f2 (Sensitivity hotword).
Proof.
  unfold Handle, separator. destruct (decide _); simpl; [done|].
  by rewrite append_empty_r.
Qed.

Lemma Handle_handlers hotword handler d :
  handlers (Handle hotword handler d)
  = Some (<[ map_len (handlers d) + 1 :=
             {| hk_Handler := handler; keyword := Name hotword |} ]>
            (map_make (handlers d))).
Proof.
  unfold Handle. destruct (decide _); simpl; by destruct (handlers d).
Qed.

Lemma map_get_make (m : option (gmap Z handlerKeyword)) k :
  map_make m !! k = map_get m k.
Proof. by destruct m. Qed.

Lemma HandleSilence_lookup threshold handler d k :
  map_get (handlers (HandleSilence threshold handler d)) k
  = if decide (k = snowboyResultSilence)
    then Some {| hk_Handler := handler; keyword := "silence" |}
    else map_get (handlers d) k.
Proof.
  unfold HandleSilence. simpl. destruct (decide _) as [->|Hk].
  - by rewrite lookup_insert_eq.
  - rewrite lookup_insert_ne by done. apply map_get_make.
Qed.

(** *** The configuration strings *)

Global Instance same_config_preorder : PreOrder (@same_config R).
Proof.
  split.
  - by intros s.
  - intros s1 s2 s3 [H1 H2] [H3 H4]. split; congruence.
Qed.

Ltac keeps :=
  unfold keeps_config;
  repeat first
    [ preserves_step
    | apply preserves_modify; by intros
    | apply preserves_emit; by intros
    | exact same_config_preorder ].

Lemma keeps_Close : keeps_config (@Close R).
Proof. unfold Close. keeps. Qed.

Lemma keeps_initialize : keeps_config initialize.
Proof. unfold initialize. keeps. Qed.

Lemma keeps_AudioFormat : keeps_config AudioFormat.
Proof. unfold AudioFormat. keeps. apply keeps_initialize. Qed.

Lemma keeps_route result : keeps_config (@route R result).
Proof. unfold route, call. keeps. Qed.

Lemma keeps_runDetection data : keeps_config (runDetection data).
Proof.
  unfold runDetection. keeps.
  destruct (RunDetection _ _ _) as [result r']. keeps.
  - apply keeps_AudioFormat.
  - match goal with fmt : (Z * Z * Z)%type |- _ =>
      destruct fmt as [[sampleRate numChannels] bitDepth]
    end.
    unfold eval. keeps.
Qed.

Lemma keeps_detect_and_route data : keeps_config (detect_and_route data).
Proof.
  unfold detect_and_route. keeps; [apply keeps_runDetection | apply keeps_route].
Qed.

Lemma keeps_read_loop data bytes : keeps_config (read_loop data bytes).
Proof.
  revert bytes. induction data as [|rd rest IH]; intros bytes; simpl.
  - apply keeps_detect_and_route.
  - keeps; try apply keeps_detect_and_route; apply IH.
Qed.

Lemma keeps_ReadAndDetect data : keeps_config (ReadAndDetect data).
Proof.
  unfold ReadAndDetect. keeps; [apply keeps_initialize | apply keeps_read_loop].
Qed.

(** C9: [HandleSilence] and [HandleSilenceFunc] leave the joined model
    and sensitivity strings as they are; they set the threshold and the
    binding of the silence code and nothing else.  [Handle] and
    [HandleFunc] append the separator (when the map is not empty) and
    the new entry to both strings, and no other operation of the
    detector changes the two strings. *)
Theorem only_Handle_extends_config d threshold handler f :
  (modelStr (HandleSilence threshold handler d) = modelStr d
   /\ sensitivityStr (HandleSilence threshold handler d) = sensitivityStr d)
  /\ (modelStr (HandleSilenceFunc threshold f d) = modelStr d
      /\ sensitivityStr (HandleSilenceFunc threshold f d) = sensitivityStr d)
  /\ (silenceThreshold (HandleSilence threshold handler d) = threshold
      /\ forall k, k <> snowboyResultSilence ->
           map_get (handlers (HandleSilence threshold handler d)) k
           = map_get (handlers d) k)
  /\ (raw (HandleSilence threshold handler d) = raw d
      /\ initialized (HandleSilence threshold handler d) = initialized d
      /\ silenceElapsed (HandleSilence threshold handler d) = silenceElapsed d
      /\ ResourceFile (HandleSilence threshold handler d) = ResourceFile d
      /\ AudioGain (HandleSilence threshold handler d) = AudioGain d)
  /\ (forall hotword,
        modelStr (Handle hotword handler d)
        = (modelStr d +:+ separator d) +:+ Model hotword
        /\ sensitivityStr (Handle hotword handler d)
           = (sensitivityStr d +:+ separator d)
             +:+ strconv.FormatFloat_f2 (Sensitivity hotword)
        /\ HandleFunc hotword f d = Handle hotword (handlerFunc f) d)
  /\ (keeps_config (@Close R) /\ keeps_config initialize
      /\ keeps_config AudioFormat
      /\ (forall result, keeps_config (@route R result))
      /\ (forall data, keeps_config (runDetection data))
      /\ (forall data, keeps_config (ReadAndDetect data))).
Proof.
  split; [done|]. split; [done|]. split.
  { split; [done|]. intros k Hk. rewrite HandleSilence_lookup.
    by destruct (decide _). }
  split; [done|]. split.
  { intros hotword. split; [apply Handle_modelStr|].
    split; [apply Handle_sensitivityStr | done]. }
  split; [apply keeps_Close|]. split; [apply keeps_initialize|].
  split; [apply keeps_AudioFormat|]. split; [apply keeps_route|].
  split; [apply keeps_runDetection | apply keeps_ReadAndDetect].
Qed.

End Registration.

Lemma only_Handle_extends_config_witness :
  map_get (handlers (HandleSilence 5 (handlerObj 2) one_hotword)) 1
  = Some {| hk_Handler := handlerObj 1; keyword := "alexa" |}
  /\ modelStr (HandleSilence 5 (handlerObj 2) one_hotword)
     = "resources/alexa.umdl"%string
  /\ sensitivityStr (HandleSilence 5 (handlerObj 2) one_hotword)
     = "0.50"%string.
Proof.
  destruct (@only_Handle_extends_config unit half_second_silence
              one_hotword 5 (handlerObj 2) 0%nat)
    as ((Hm & Hs) & _ & (_ & Hk) & _).
  split; [rewrite Hk; [reflexivity | discriminate]|].
  split; [rewrite Hm | rewrite Hs]; reflexivity.
Defined.

(** ** Result codes of registered hotwords *)

Section ResultCodes.

Context {R : Type} {engine : SnowboyDetect R}.
Implicit Types (s : state R) (d : Detector R).

Lemma dense_NewDetector resourceFile :
  dense (NewDetector resourceFile : Detector R) 0.
Proof.
  split; [done|]. intros k. simpl. split; [by intros [? ?] | lia].
Qed.

Lemma Handle_lookup_dense hotword handler d n k :
  dense d n ->
  map_get (handlers (Handle hotword handler d)) k
  = if decide (k = Z.of_nat n + 1)
    then Some {| hk_Handler := handler; keyword := Name hotword |}
    else map_get (handlers d) k.
Proof.
  intros [Hlen _]. rewrite Handle_handlers, Hlen. simpl.
  destruct (decide _) as [->|Hk].
  - by rewrite lookup_insert_eq.
  - rewrite lookup_insert_ne by done. apply map_get_make.
Qed.

Lemma Handle_dense hotword handler d n :
  dense d n -> dense (Handle hotword handler d) (S n).
Proof.
  intros Hd. pose proof Hd as [Hlen Hdom]. split.
  - rewrite Handle_handlers, Hlen. simpl.
    rewrite map_size_insert_None; [|].
    + assert (size (map_make (handlers d)) = n) as ->; [|done].
      destruct (handlers d) as [m|]; simpl in Hlen |- *; [lia|].
      rewrite map_size_empty. lia.
    + rewrite map_get_make. apply eq_None_not_Some. rewrite Hdom. lia.
  - intros k. rewrite (Handle_lookup_dense _ _ _ n) by done.
    destruct (decide _) as [->|Hk]; [split; [lia | eauto]|].
    rewrite Hdom. lia.
Qed.

(** Registering hotwords only: the [i]-th one (from 0) is bound to
    result code [i + 1]. *)
Lemma register_all_binds hs d n :
  dense d n ->
  dense (register_all hs d) (n + length hs)
  /\ (forall k, 1 <= k <= Z.of_nat n ->
                map_get (handlers (register_all hs d)) k
                = map_get (handlers d) k)
  /\ (forall i hotword handler,
        hs !! i = Some (hotword, handler) ->
        map_get (handlers (register_all hs d)) (Z.of_nat (n + i) + 1)
        = Some {| hk_Handler := handler; keyword := Name hotword |}).
Proof.
  revert d n. induction hs as [|[hw h] hs IH]; intros d n Hd; simpl.
  - rewrite Nat.add_0_r. split; [done|]. split; [done|]. by intros i ? ? [=].
  - destruct (IH _ _ (Handle_dense hw h d n Hd)) as (Hdense & Hold & Hnew).
    replace (n + S (length hs))%nat with (S n + length hs)%nat by lia.
    split; [done|]. split.
    + intros k Hk. rewrite Hold by lia.
      rewrite (Handle_lookup_dense _ _ _ n) by done.
      destruct (decide _); [lia | done].
    + intros [|i] hotword handler Hi; simpl in Hi.
      * injection Hi as <- <-. rewrite Nat.add_0_r, Hold by lia.
        rewrite (Handle_lookup_dense _ _ _ n) by done.
        by destruct (decide _).
      * replace (n + S i)%nat with (S n + i)%nat by lia. by apply Hnew.
Qed.

(** So with hotwords registered first and the silence handler after
    them, result code [N] reaches the [N]-th hotword's handler with
    that hotword's name. *)
Lemma hotwords_then_silence_route resourceFile hs threshold hsil
      i hotword handler l :
  hs !! i = Some (hotword, handler) ->
  let d : Detector R :=
    HandleSilence threshold hsil
      (register_all hs (NewDetector resourceFile)) in
  route (Z.of_nat i + 1) {| det := d; log := l |}
  = Ok None {| det := set_silenceElapsed 0 d;
               log := l ++ [EvDetected handler (Name hotword)] |}.
Proof.
  intros Hi d.
  destruct (register_all_binds hs (NewDetector resourceFile) 0
              (dense_NewDetector _)) as (_ & _ & Hnew).
  specialize (Hnew i hotword handler Hi). simpl in Hnew.
  rewrite (route_fires _ _
             {| hk_Handler := handler; keyword := Name hotword |});
    unfold snowboyResultError, snowboyResultNoDetection,
      snowboyResultSilence; try lia; [done|].
  subst d. simpl det. rewrite HandleSilence_lookup.
  destruct (decide _) as [Heq|_]; [unfold snowboyResultSilence in Heq; lia|].
  done.
Qed.

(** With hotwords only, the silence code has no binding. *)
Lemma hotwords_only_silence_unbound resourceFile hs l :
  let d : Detector R := register_all hs (NewDetector resourceFile) in
  route snowboyResultSilence {| det := d; log := l |}
  = Ok (Some NoHandler) {| det := d; log := l |}.
Proof.
  intros d.
  destruct (register_all_binds hs (NewDetector resourceFile) 0
              (dense_NewDetector _)) as ((_ & Hdom) & _).
  apply route_unbound; [done|done|]. apply eq_None_not_Some.
  intros Hsome. apply Hdom in Hsome. unfold snowboyResultSilence in Hsome. lia.
Qed.

(** *** Fields of the joined strings *)

Lemma Count_app (a b : string) (c : ascii) :
  strings.Count (a +:+ b) c = (strings.Count a c + strings.Count b c)%nat.
Proof.
  induction a as [|k a IH]; [done|].
  change (strings.Count (String k (a +:+ b)) c
          = (strings.Count (String k a) c + strings.Count b c)%nat).
  simpl. rewrite IH. lia.
Qed.

Lemma uint_no_comma (u : Decimal.uint) :
  strings.Count (NilEmpty.string_of_uint u) "," = 0%nat.
Proof. induction u; simpl; done. Qed.

Lemma decimal_no_comma (n : Z) : strings.Count (strconv.decimal n) "," = 0%nat.
Proof.
  unfold strconv.decimal, NilZero.string_of_uint.
  destruct (N.to_uint _); first [done | apply uint_no_comma].
Qed.

(** A formatted sensitivity is a single field. *)
Lemma FormatFloat_no_comma (x : strconv.float32) :
  strings.Count (strconv.FormatFloat_f2 x) "," = 0%nat.
Proof.
  assert (forall neg h, strings.Count (strconv.fixed2 neg h) "," = 0%nat) as Hfixed.
  { intros neg h. unfold strconv.fixed2.
    rewrite !Count_app, !decimal_no_comma. by destruct neg. }
  destruct x as [neg|[]| |neg m e]; simpl; try done; apply Hfixed.
Qed.

Lemma Handle_joined hotword handler d n :
  strings.Count (Model hotword) "," = 0%nat ->
  dense d n -> joined d n -> joined (Handle hotword handler d) (S n).
Proof.
  intros Hmodel [Hlen _] Hj. unfold joined.
  rewrite Handle_modelStr, Handle_sensitivityStr, !Count_app.
  rewrite Hmodel, FormatFloat_no_comma. unfold separator. rewrite Hlen.
  destruct n as [|n]; simpl in Hj; destruct Hj as [Hm Hs].
  - rewrite Hm, Hs. by destruct (decide _).
  - destruct (decide _) as [_|Hn]; [simpl; lia | lia].
Qed.

(** Registering hotwords only, with model identifiers free of commas:
    both joined strings have as many fields as there are hotwords. *)
Lemma register_all_fields resourceFile hs :
  hs <> [] ->
  Forall (fun p => strings.Count (Model p.1) "," = 0%nat) hs ->
  let d : Detector R := register_all hs (NewDetector resourceFile) in
  (strings.Count (modelStr d) "," + 1 = length hs)%nat
  /\ (strings.Count (sensitivityStr d) "," + 1 = length hs)%nat.
Proof.
  intros Hne Hall.
  assert (forall hs (d : Detector R) n,
             Forall (fun p => strings.Count (Model p.1) "," = 0%nat) hs ->
             dense d n -> joined d n ->
             joined (register_all hs d) (n + length hs)) as Hgen.
  { clear. induction hs as [|[hw h] hs IH]; intros d n Hall Hd Hj; simpl.
    - by rewrite Nat.add_0_r.
    - apply Forall_cons in Hall as [Hhw Hall].
      replace (n + S (length hs))%nat with (S n + length hs)%nat by lia.
      apply IH; [done | by apply Handle_dense | by apply Handle_joined]. }
  specialize (Hgen hs (NewDetector resourceFile) 0%nat Hall
                (dense_NewDetector _) (conj eq_refl eq_refl)).
  simpl in Hgen. destruct hs; [done|]. exact Hgen.
Qed.

(** C1, on the code: once [HandleSilence] has been called, the next
    hotword registered with [Handle] is the first hotword but is bound
    to result code 2, code 1 stays unbound and is answered with
    [NoHandler], and both joined strings start with a separator, so
    they have two comma-separated fields for one hotword. *)
Theorem Handle_after_HandleSilence_skips_a_code
        resourceFile threshold hsil hotword handler l :
  let d : Detector R :=
    Handle hotword handler
      (HandleSilence threshold hsil (NewDetector resourceFile)) in
  map_get (handlers d) 1 = None
  /\ map_get (handlers d) 2
     = Some {| hk_Handler := handler; keyword := Name hotword |}
  /\ modelStr d = "," +:+ Model hotword
  /\ sensitivityStr d
     = "," +:+ strconv.FormatFloat_f2 (Sensitivity hotword)
  /\ route 1 {| det := d; log := l |}
     = Ok (Some NoHandler) {| det := d; log := l |}.
Proof.
  intros d.
  assert (map_len (handlers (HandleSilence threshold hsil
                               (NewDetector resourceFile : Detector R))) = 1)
    as Hlen by reflexivity.
  assert (map_get (handlers d) 1 = None) as H1.
  { subst d. rewrite Handle_handlers, Hlen. simpl.
    rewrite lookup_insert_ne by done. by rewrite lookup_insert_ne. }
  split; [done|]. split.
  { subst d. rewrite Handle_handlers, Hlen. simpl.
    by rewrite lookup_insert_eq. }
  split.
  { subst d. rewrite Handle_modelStr. unfold separator. by rewrite Hlen. }
  split.
  { subst d. rewrite Handle_sensitivityStr. unfold separator.
    by rewrite Hlen. }
  by apply route_unbound.
Qed.

End ResultCodes.

(** ** The streaming loop *)

Section Streaming.

Context {R : Type} {engine : SnowboyDetect R}.
Implicit Types (s : state R) (d : Detector R).

Lemma engine_calls_app (l1 l2 : list event) :
  engine_calls (l1 ++ l2) = engine_calls l1 ++ engine_calls l2.
Proof.
  induction l1 as [|[] l1 IH]; simpl; by rewrite ?IH.
Qed.

Global Instance whole_buffers_only_preorder :
  PreOrder (@whole_buffers_only R).
Proof.
  split.
  - intros s. exists []. by rewrite app_nil_r.
  - intros s1 s2 s3 (l1 & H1 & F1) (l2 & H2 & F2). exists (l1 ++ l2).
    split; [by rewrite H2, H1, app_assoc|].
    rewrite engine_calls_app. by apply Forall_app.
Qed.

(** [Read] never changes the length of the buffer it fills. *)
Lemma read_into_length (p data : list byte) :
  length (read_into p data) = length p.
Proof.
  unfold read_into, read_n.
  rewrite length_app, length_drop, length_take. lia.
Qed.

Lemma whole_modify (f : Detector R -> Detector R) :
  preserves whole_buffers_only (modify f).
Proof.
  apply preserves_modify; try apply _. intros s. exists [].
  by rewrite app_nil_r.
Qed.

Lemma whole_emit e :
  engine_calls [e] = [] -> preserves whole_buffers_only (@emit R e).
Proof.
  intros He. apply preserves_emit; try apply _. intros s. exists [e].
  by rewrite He.
Qed.

Ltac whole :=
  repeat first
    [ preserves_step
    | apply whole_modify
    | apply whole_emit; reflexivity
    | exact whole_buffers_only_preorder ].

Lemma whole_initialize : preserves whole_buffers_only initialize.
Proof. unfold initialize. whole. Qed.

Lemma whole_AudioFormat : preserves whole_buffers_only AudioFormat.
Proof. unfold AudioFormat. whole. apply whole_initialize. Qed.

Lemma whole_route result : preserves whole_buffers_only (@route R result).
Proof. unfold route, call. whole. Qed.

Lemma whole_runDetection data :
  length data = 2048%nat ->
  preserves whole_buffers_only (runDetection data).
Proof.
  intros Hlen. unfold runDetection. whole.
  destruct (RunDetection _ _ _) as [result r']. whole.
  - apply preserves_emit; try apply _. intros s. eexists. split; [done|].
    simpl. constructor; [|done]. split; [done|]. simpl. by rewrite Hlen.
  - apply whole_AudioFormat.
  - match goal with fmt : (Z * Z * Z)%type |- _ =>
      destruct fmt as [[sampleRate numChannels] bitDepth]
    end.
    unfold eval. whole.
Qed.

Lemma whole_detect_and_route data :
  length data = 2048%nat ->
  preserves whole_buffers_only (detect_and_route data).
Proof.
  intros Hlen. unfold detect_and_route. whole;
    [by apply whole_runDetection | apply whole_route].
Qed.

Lemma whole_read_loop data bytes :
  length bytes = 2048%nat ->
  preserves whole_buffers_only (read_loop data bytes).
Proof.
  revert bytes. induction data as [|rd rest IH]; intros bytes Hlen; simpl.
  - by apply whole_detect_and_route.
  - assert (length (read_into bytes (rd_data rd)) = 2048%nat) as Hlen'
      by (by rewrite read_into_length).
    whole; try (by apply whole_detect_and_route); by apply IH.
Qed.

(** Whatever the source delivers, every detection call that
    [ReadAndDetect] makes hands the engine the whole 2048-byte buffer;
    the number of bytes read never limits the chunk. *)
Lemma ReadAndDetect_whole_buffers data s e s' :
  ReadAndDetect data s = Ok e s' ->
  exists l', log s' = log s ++ l'
             /\ Forall whole_buffer_call (engine_calls l').
Proof.
  revert s e s'. change (preserves whole_buffers_only (ReadAndDetect data)).
  unfold ReadAndDetect. whole; [apply whole_initialize|].
  apply whole_read_loop. apply repeat_length.
Qed.

(** An error from routing the chunk of a successful read ends the
    loop at once with that error. *)
Lemma read_loop_propagates rd rest bytes s e s' :
  rd_err rd = None ->
  read_n bytes (rd_data rd) <> 0%nat ->
  detect_and_route (read_into bytes (rd_data rd)) s = Ok (Some e) s' ->
  read_loop (rd :: rest) bytes s = Ok (Some e) s'.
Proof.
  intros Herr Hn Hroute. simpl. rewrite Herr.
  destruct (decide _) as [|_]; [done|]. unfold bind. by rewrite Hroute.
Qed.

(** At end of stream the result of the last pass is the result of the
    loop, an error included. *)
Lemma read_loop_end_of_stream bytes :
  read_loop [] bytes = detect_and_route bytes.
Proof. reflexivity. Qed.

End Streaming.

(** C3, on the code: a successful read of two bytes is followed by a
    detection call on the whole 2048-byte buffer (1024 samples), the
    two bytes and 2046 bytes that were never read; the end of the
    stream then runs the engine on the same buffer once more. *)
Theorem ReadAndDetect_short_read_feeds_whole_buffer :
  let source : Reader := [ {| rd_data := [x01; x02]; rd_err := None |} ] in
  exists s',
    @ReadAndDetect unit (fixed_engine 0 16000 1 16) source (fresh one_hotword)
    = Ok None s'
    /\ engine_calls (log s')
       = [ (x01 :: x02 :: repeat x00 2046, 1024);
           (x01 :: x02 :: repeat x00 2046, 1024) ].
Proof.
  eexists. split; vm_compute; reflexivity.
Qed.

(** C4, on the code: a source that is at end of stream from the start
    leaves no bytes, yet the final pass runs the engine on the 2048
    zero bytes of the fresh buffer.  With an engine that hears silence
    in them and no silence handler, [ReadAndDetect] returns [NoHandler]
    and half a second of silence is credited; with an engine that
    answers 1 the hotword handler is called. *)
Theorem ReadAndDetect_end_of_stream_runs_engine :
  @ReadAndDetect unit half_second_silence [] (fresh one_hotword)
  = Ok (Some NoHandler)
       {| det := set_silenceElapsed (time_Second / 2) initialized_detector;
          log := [EvRunDetection zero_chunk 1024] |}
  /\ @ReadAndDetect unit (fixed_engine 1 16000 1 16) [] (fresh one_hotword)
     = Ok None
          {| det := initialized_detector;
             log := [EvRunDetection zero_chunk 1024;
                     EvDetected (handlerObj 1) "alexa"] |}.
Proof.
  split; vm_compute; reflexivity.
Qed.

(** ** Hotword names *)

(** The two names of the specification's examples. *)
Lemma NewHotword_examples sensitivity :
  Name (NewHotword "a/b/foo.umdl" sensitivity) = "foo"%string
  /\ Name (NewHotword "bar.umdl" sensitivity) = "bar"%string.
Proof. split; reflexivity. Qed.

(** C5, on the code: [NewHotword] trims the characters of ".umdl" as a
    set, so a stem that ends in one of them loses it too: "drum.umdl"
    is named "dr" where stripping the extension gives "drum", and a
    model without the extension is trimmed as well. *)
Theorem NewHotword_trims_a_character_set sensitivity :
  Name (NewHotword "drum.umdl" sensitivity) = "dr"%string
  /\ deriveName_spec "drum.umdl" = "drum"%string
  /\ Name (NewHotword "models/hal" sensitivity) = "ha"%string
  /\ deriveName_spec "models/hal" = "hal"%string.
Proof. repeat split; reflexivity. Qed.

(** Where the two derivations agree: a model identifier that ends in
    the extension and whose stem ends in a character outside the set
    of characters of the extension. *)

Lemma append_cons (k : ascii) (a b : string) :
  String k a +:+ b = String k (a +:+ b).
Proof. reflexivity. Qed.

Lemma TrimRight_cutset_only (t cutset : string) :
  (forall c, strings.contains_byte t c = true ->
             strings.contains_byte cutset c = true) ->
  strings.TrimRight t cutset = EmptyString.
Proof.
  induction t as [|k t IH]; intros Hin; [done|]. simpl.
  rewrite IH.
  - rewrite (Hin k); [done|]. simpl. by rewrite Ascii.eqb_refl.
  - intros c Hc. apply Hin. simpl. by destruct (Ascii.eqb k c).
Qed.

Lemma TrimRight_app_cutset (s t cutset : string) :
  strings.TrimRight t cutset = EmptyString ->
  strings.TrimRight (s +:+ t) cutset = strings.TrimRight s cutset.
Proof.
  intros Ht. induction s as [|k s IH]; [done|].
  rewrite append_cons. simpl. by rewrite IH.
Qed.

Lemma TrimRight_keeps (stem cutset : string) (c : ascii) :
  strings.contains_byte cutset c = false ->
  strings.TrimRight (stem +:+ String c EmptyString) cutset
  = stem +:+ String c EmptyString.
Proof.
  intros Hc. induction stem as [|k stem IH].
  - simpl. by rewrite Hc.
  - rewrite append_cons. simpl. rewrite IH.
    by destruct stem.
Qed.

Lemma HasSuffix_app (s suffix : string) :
  strings.HasSuffix (s +:+ suffix) suffix = true.
Proof.
  induction s as [|k s IH].
  - destruct suffix; simpl; by rewrite ?String.eqb_refl, ?Ascii.eqb_refl.
  - rewrite append_cons.
    change (strings.HasSuffix (String k (s +:+ suffix)) suffix)
      with (if String.eqb (String k (s +:+ suffix)) suffix then true
            else strings.HasSuffix (s +:+ suffix) suffix).
    rewrite IH. by destruct (String.eqb _ _).
Qed.

Lemma substring_prefix (s t : string) :
  String.substring 0 (String.length s) (s +:+ t) = s.
Proof.
  induction s as [|k s IH]; [by destruct t|].
  rewrite append_cons. simpl. by rewrite IH.
Qed.

Lemma length_append (s t : string) :
  String.length (s +:+ t) = (String.length s + String.length t)%nat.
Proof.
  induction s as [|k s IH]; [done|]. rewrite append_cons. simpl. by rewrite IH.
Qed.

Lemma TrimSuffix_app (s suffix : string) :
  strings.TrimSuffix (s +:+ suffix) suffix = s.
Proof.
  unfold strings.TrimSuffix. rewrite HasSuffix_app, length_append.
  replace (String.length s + String.length suffix - String.length suffix)%nat
    with (String.length s) by lia.
  apply substring_prefix.
Qed.

Lemma NewHotword_matches_spec stem c sensitivity :
  strings.contains_byte umdl c = false ->
  Name (NewHotword ((stem +:+ String c EmptyString) +:+ umdl) sensitivity)
  = deriveName_spec ((stem +:+ String c EmptyString) +:+ umdl).
Proof.
  intros Hc. unfold NewHotword, deriveName_spec. simpl Name.
  rewrite TrimRight_app_cutset by reflexivity.
  by rewrite TrimRight_keeps, TrimSuffix_app.
Qed.


(** * Further properties of the code *)

(** ** Lazy initialization *)

Section Initialization.

Context {R : Type} {engine : SnowboyDetect R}.
Implicit Types (s : state R) (d : Detector R).

Lemma initialize_fresh s :
  initialized (det s) = false ->
  initialize s
  = Ok tt {| det := set_initialized true
                      (set_raw (Some (configured (det s))) (det s));
             log := log s |}.
Proof.
  intros Hinit. unfold_m. rewrite Hinit. destruct s as [[] l]. reflexivity.
Qed.

Lemma initialize_done s :
  initialized (det s) = true -> initialize s = Ok tt s.
Proof. intros Hinit. unfold_m. by rewrite Hinit. Qed.

Lemma initialize_returns s :
  exists s0,
    initialize s = Ok tt s0
    /\ initialized (det s0) = true
    /\ log s0 = log s.
Proof.
  destruct (initialized (det s)) eqn:Hinit.
  - exists s. by rewrite initialize_done.
  - eexists. rewrite initialize_fresh by done. done.
Qed.

(** X1: [initialize] never panics and leaves the detector initialized
    with the log, the handlers and the configuration strings as they
    were.  On an uninitialized detector it installs the engine built
    from the resource file, the joined models, the joined sensitivities
    and the gain; on an initialized one it changes nothing, so a second
    call is always a no-op. *)
Theorem initialize_once s :
  exists s1,
    initialize s = Ok tt s1
    /\ initialized (det s1) = true
    /\ log s1 = log s
    /\ handlers (det s1) = handlers (det s)
    /\ modelStr (det s1) = modelStr (det s)
    /\ sensitivityStr (det s1) = sensitivityStr (det s)
    /\ initialize s1 = Ok tt s1
    /\ (initialized (det s) = true -> s1 = s)
    /\ (initialized (det s) = false ->
        raw (det s1) = Some (configured (det s))).
Proof.
  destruct (initialized (det s)) eqn:Hinit.
  - exists s. rewrite initialize_done by done. repeat split; done.
  - eexists. rewrite initialize_fresh by done.
    repeat split; done.
Qed.

(** X2: on a detector that holds an engine whenever it is marked
    initialized, [AudioFormat] returns the sample rate, channel count
    and bit depth of the detector's engine, initializing the detector
    first when needed; it logs nothing, and asking again gives the same
    answer without any further change. *)
Theorem AudioFormat_reports_engine s :
  engine_ready s ->
  exists r s1,
    AudioFormat s = Ok (SampleRate r, NumChannels r, BitsPerSample r) s1
    /\ raw (det s1) = Some r
    /\ initialized (det s1) = true
    /\ log s1 = log s
    /\ AudioFormat s1
       = Ok (SampleRate r, NumChannels r, BitsPerSample r) s1
    /\ (initialized (det s) = true -> s1 = s)
    /\ (initialized (det s) = false -> r = configured (det s)).
Proof.
  intros Hready. unfold AudioFormat, bind.
  destruct (initialized (det s)) eqn:Hinit.
  - destruct (raw (det s)) as [r|] eqn:Hraw; [|by destruct Hready].
    exists r, s. rewrite initialize_done by done.
    unfold the_raw, bind, get, ret. rewrite Hraw. repeat split; done.
  - exists (configured (det s)). eexists.
    rewrite initialize_fresh by done. unfold the_raw, bind, get, ret. simpl.
    repeat split; done.
Qed.

(** X3: after a successful [Close] the detector can be initialized
    again: the engine is rebuilt from the configuration strings as they
    are then, the handlers are kept, and the log shows the one release
    of the old engine. *)
Theorem Close_then_initialize s :
  initialized (det s) = true ->
  exists s1 s2,
    Close s = Ok None s1
    /\ initialize s1 = Ok tt s2
    /\ initialized (det s2) = true
    /\ raw (det s2) = Some (configured (det s))
    /\ handlers (det s2) = handlers (det s)
    /\ log s2 = log s ++ [EvDelete].
Proof.
  intros Hinit. do 2 eexists.
  split; [by apply Close_initialized|].
  split; [by apply initialize_fresh|].
  destruct s as [[] l]. repeat split.
Qed.

(** X4: [Handle] touches nothing but the two joined strings and one
    binding: the engine, the initialized flag, the silence threshold
    and accumulator, the resource file and the gain are as before, and
    so is every binding but the one under [len(handlers) + 1], which is
    the new hotword's.  Hence a hotword registered after initialization
    never reaches the engine: [initialize] on the result changes
    nothing. *)
Theorem Handle_frame hotword handler d :
  (raw (Handle hotword handler d) = raw d
   /\ initialized (Handle hotword handler d) = initialized d
   /\ silenceThreshold (Handle hotword handler d) = silenceThreshold d
   /\ silenceElapsed (Handle hotword handler d) = silenceElapsed d
   /\ ResourceFile (Handle hotword handler d) = ResourceFile d
   /\ AudioGain (Handle hotword handler d) = AudioGain d)
  /\ (forall k, k <> map_len (handlers d) + 1 ->
                map_get (handlers (Handle hotword handler d)) k
                = map_get (handlers d) k)
  /\ map_get (handlers (Handle hotword handler d)) (map_len (handlers d) + 1)
     = Some {| hk_Handler := handler; keyword := Name hotword |}
  /\ (forall l, initialized d = true ->
                initialize {| det := Handle hotword handler d; log := l |}
                = Ok tt {| det := Handle hotword handler d; log := l |}).
Proof.
  split; [unfold Handle; by destruct (decide _)|].
  split.
  { intros k Hk. rewrite Handle_handlers. simpl.
    rewrite lookup_insert_ne by done. apply map_get_make. }
  split.
  { rewrite Handle_handlers. simpl. by rewrite lookup_insert_eq. }
  intros l Hinit. apply initialize_done.
  change (initialized (Handle hotword handler d) = true).
  by rewrite Handle_initialized.
Qed.

End Initialization.

Lemma initialize_once_witness :
  exists s1 : state (list string),
    @initialize _ recording_engine unused = Ok tt s1
    /\ raw (det s1)
       = Some ["resources/common.res"; "resources/alexa.umdl"; "0.50"; "1.00"]%string
    /\ @initialize _ recording_engine s1 = Ok tt s1.
Proof.
  destruct (@initialize_once _ recording_engine unused)
    as (s1 & Hrun & _ & _ & _ & _ & _ & Hagain & _ & Hraw).
  exists s1. split; [exact Hrun|]. split; [|exact Hagain].
  rewrite Hraw; reflexivity.
Defined.

Lemma AudioFormat_reports_engine_witness :
  exists r (s1 : state (list string)),
    @AudioFormat _ recording_engine unused = Ok (16000, 1, 16) s1
    /\ raw (det s1) = Some r
    /\ r = ["resources/common.res"; "resources/alexa.umdl"; "0.50"; "1.00"]%string.
Proof.
  destruct (@AudioFormat_reports_engine _ recording_engine unused)
    as (r & s1 & Hrun & Hraw & _ & _ & _ & _ & Hr); [discriminate|].
  exists r, s1. split; [exact Hrun|]. split; [exact Hraw|].
  rewrite Hr; reflexivity.
Defined.

Lemma Close_then_initialize_witness :
  exists s1 s2 : state unit,
    Close (fresh initialized_detector) = Ok None s1
    /\ @initialize unit half_second_silence s1 = Ok tt s2
    /\ initialized (det s2) = true
    /\ log s2 = [EvDelete].
Proof.
  destruct (@Close_then_initialize unit half_second_silence
              (fresh initialized_detector))
    as (s1 & s2 & Hc & Hi & Hinit & _ & _ & Hlog); [reflexivity|].
  exists s1, s2. split; [exact Hc|]. split; [exact Hi|].
  split; [exact Hinit | exact Hlog].
Defined.

Lemma Handle_frame_witness :
  map_get (handlers (Handle (NewDefaultHotword "b.umdl") (handlerObj 3)
                       initialized_detector)) 1
  = Some {| hk_Handler := handlerObj 1; keyword := "alexa" |}
  /\ @initialize unit half_second_silence
       (fresh (Handle (NewDefaultHotword "b.umdl") (handlerObj 3)
                 initialized_detector))
     = Ok tt (fresh (Handle (NewDefaultHotword "b.umdl") (handlerObj 3)
                       initialized_detector)).
Proof.
  destruct (@Handle_frame unit half_second_silence
              (NewDefaultHotword "b.umdl") (handlerObj 3) initialized_detector)
    as (_ & Hold & _ & Hinit).
  split; [rewrite Hold; [reflexivity | by vm_compute]|].
  apply Hinit. reflexivity.
Defined.


(** ** The streaming loop as a whole *)

Section Loop.

Context {R : Type} {engine : SnowboyDetect R}.
Implicit Types (s : state R) (d : Detector R).

(** *** The initialized flag *)

Global Instance stays_initialized_preorder : PreOrder (@stays_initialized R).
Proof.
  split; [intros s H; exact H|].
  intros s1 s2 s3 H12 H23 H1. by apply H23, H12.
Qed.

Ltac stays :=
  repeat first
    [ preserves_step
    | apply preserves_modify; try apply _;
      intros ?; unfold stays_initialized; simpl; done
    | apply preserves_emit; try apply _;
      intros ?; unfold stays_initialized; simpl; done
    | exact stays_initialized_preorder ].

Lemma stays_initialize : preserves stays_initialized initialize.
Proof. unfold initialize. stays. Qed.

Lemma stays_route result : preserves stays_initialized (@route R result).
Proof. unfold route, call. stays. Qed.

Lemma stays_runDetection data :
  preserves stays_initialized (runDetection data).
Proof.
  unfold runDetection. stays.
  destruct (RunDetection _ _ _) as [result r']. stays.
  - unfold AudioFormat. stays. apply stays_initialize.
  - match goal with fmt : (Z * Z * Z)%type |- _ =>
      destruct fmt as [[sampleRate numChannels] bitDepth]
    end.
    unfold eval. stays.
Qed.

Lemma stays_read_loop data bytes :
  preserves stays_initialized (read_loop data bytes).
Proof.
  revert bytes. induction data as [|rd rest IH]; intros bytes; simpl;
    unfold detect_and_route; stays;
    try apply stays_runDetection; try apply stays_route; apply IH.
Qed.

(** X5: whenever [ReadAndDetect] returns, with nil or with an error,
    the detector is initialized; so a [Close] right after it succeeds,
    releases the engine and clears the flag. *)
Theorem ReadAndDetect_leaves_initialized data s e s1 :
  ReadAndDetect data s = Ok e s1 ->
  initialized (det s1) = true
  /\ exists s2, Close s1 = Ok None s2
                /\ initialized (det s2) = false
                /\ log s2 = log s1 ++ [EvDelete].
Proof.
  intros Hrun.
  assert (initialized (det s1) = true) as Hinit.
  { unfold ReadAndDetect, bind in Hrun.
    destruct (initialize_returns s) as (s0 & Hi & Hinit0 & _).
    rewrite Hi in Hrun. exact (stays_read_loop _ _ _ _ _ Hrun Hinit0). }
  split; [done|]. eexists. split; [by apply Close_initialized|]. done.
Qed.

(** *** The errors the loop can return *)

Lemma route_errors s result e s' :
  route result s = Ok (Some e) s' ->
  e = NoHandler \/ e = SnowboyLibraryError.
Proof.
  unfold route. destruct (decide _); [intros [= <- _]; by right|].
  destruct (decide _); [|done]. unfold_m.
  destruct (map_get _ _); [|intros [= <- _]; by left].
  by destruct (decide _).
Qed.

Lemma detect_and_route_errors s data e s' :
  detect_and_route data s = Ok (Some e) s' ->
  e = NoHandler \/ e = SnowboyLibraryError.
Proof.
  unfold detect_and_route, bind.
  destruct (runDetection data s) as [result s1|]; [|done].
  apply route_errors.
Qed.

Lemma read_loop_errors data bytes s e s' :
  read_loop data bytes s = Ok (Some e) s' ->
  e = NoHandler \/ e = SnowboyLibraryError
  \/ (e <> io_EOF /\ exists rd, rd ∈ data /\ rd_err rd = Some e).
Proof.
  revert bytes s. induction data as [|rd rest IH]; intros bytes s; simpl.
  { intros H. apply detect_and_route_errors in H. tauto. }
  assert (forall s0 bytes0,
             read_loop rest bytes0 s0 = Ok (Some e) s' ->
             e = NoHandler \/ e = SnowboyLibraryError
             \/ (e <> io_EOF
                 /\ exists rd0, rd0 ∈ rd :: rest /\ rd_err rd0 = Some e))
    as IH'.
  { intros s0 bytes0 H. destruct (IH _ _ H) as [?|[?|(Hne & rd0 & Hin & Herr)]];
      [tauto|tauto|]. right. right. split; [done|]. exists rd0.
    split; [by apply list_elem_of_further | done]. }
  destruct (rd_err rd) as [err|] eqn:Herr.
  - destruct (decide (err = io_EOF)) as [->|Hne].
    + intros H. apply detect_and_route_errors in H. tauto.
    + intros [= <- <-]. right. right. split; [done|]. exists rd.
      split; [apply list_elem_of_here | done].
  - destruct (decide _).
    + unfold bind, emit. apply IH'.
    + unfold bind.
      destruct (detect_and_route _ s) as [[e0|] s1|] eqn:Hpass; [| |done].
      * intros [= <- <-]. apply detect_and_route_errors in Hpass. tauto.
      * apply IH'.
Qed.

(** X6: an error returned by [ReadAndDetect] is [NoHandler], or
    [SnowboyLibraryError], or an error that one of the reads of the
    source returned; it is never [io.EOF]. *)
Theorem ReadAndDetect_errors data s e s' :
  ReadAndDetect data s = Ok (Some e) s' ->
  e <> io_EOF
  /\ (e = NoHandler \/ e = SnowboyLibraryError
      \/ exists rd, rd ∈ data /\ rd_err rd = Some e).
Proof.
  unfold ReadAndDetect, bind.
  destruct (initialize s) as [[] s0|]; [|done]. intros Hloop.
  destruct (read_loop_errors _ _ _ _ _ Hloop)
    as [->|[->|(Hne & rd & Hin & Herr)]]; split; eauto; done.
Qed.

End Loop.

Lemma ReadAndDetect_leaves_initialized_witness :
  let s1 : state unit :=
    {| det := set_silenceElapsed (time_Second / 2) initialized_detector;
       log := [EvRunDetection zero_chunk 1024] |} in
  @ReadAndDetect unit half_second_silence [] (fresh one_hotword)
  = Ok (Some NoHandler) s1
  /\ initialized (det s1) = true
  /\ exists s2 : state unit, Close s1 = Ok None s2.
Proof.
  intros s1.
  assert (@ReadAndDetect unit half_second_silence [] (fresh one_hotword)
          = Ok (Some NoHandler) s1) as Hrun by (vm_compute; reflexivity).
  destruct (@ReadAndDetect_leaves_initialized unit half_second_silence
              [] (fresh one_hotword) (Some NoHandler) s1 Hrun)
    as (Hinit & s2 & Hclose & _).
  split; [exact Hrun|]. split; [exact Hinit|]. exists s2. exact Hclose.
Defined.

Lemma ReadAndDetect_errors_witness :
  let source : Reader :=
    [ {| rd_data := []; rd_err := Some (errors_New "device lost") |} ] in
  @ReadAndDetect unit half_second_silence source (fresh one_hotword)
  = Ok (Some (errors_New "device lost")) (fresh initialized_detector)
  /\ errors_New "device lost" <> io_EOF.
Proof.
  intros source.
  assert (@ReadAndDetect unit half_second_silence source (fresh one_hotword)
          = Ok (Some (errors_New "device lost")) (fresh initialized_detector))
    as Hrun by (vm_compute; reflexivity).
  split; [exact Hrun|].
  exact (proj1 (@ReadAndDetect_errors unit half_second_silence source
                  (fresh one_hotword) _ _ Hrun)).
Defined.

(** ** What the engine is given, and when the loop panics *)

Section Passes.

Context {R : Type} {engine : SnowboyDetect R}.
Implicit Types (s : state R) (d : Detector R).

Global Instance same_engine_calls_preorder : PreOrder (@same_engine_calls R).
Proof.
  split; [by intros s|].
  intros s1 s2 s3 H12 H23. unfold same_engine_calls in *. congruence.
Qed.

Ltac quiet :=
  repeat first
    [ preserves_step
    | apply preserves_modify; try apply _; by intros ?
    | apply preserves_emit; try apply _;
      intros ?; unfold same_engine_calls; simpl;
      rewrite engine_calls_app, app_nil_r; done
    | exact same_engine_calls_preorder ].

Lemma quiet_initialize : preserves same_engine_calls initialize.
Proof. unfold initialize. quiet. Qed.

Lemma quiet_route result : preserves same_engine_calls (@route R result).
Proof. unfold route, call. quiet. Qed.

(** A returning [runDetection] on a non-empty chunk has called the
    engine exactly once, on that chunk. *)
Lemma runDetection_call data s result s' :
  data <> [] ->
  runDetection data s = Ok result s' ->
  engine_calls (log s')
  = engine_calls (log s) ++ [(data, Z.quot (Z.of_nat (length data)) 2)].
Proof.
  intros Hne. unfold runDetection.
  destruct (decide _) as [H0|_]; [by apply length_zero_nil in H0|].
  unfold bind at 1. unfold the_raw, bind at 1. unfold get, ret.
  destruct (raw (det s)) as [r|]; [|done].
  destruct (RunDetection _ _ _) as [res r'].
  unfold bind at 1. unfold emit at 1.
  set (s1 := {| det := det s; log := log s ++ _ |}).
  intros Hrest.
  assert (same_engine_calls s1 s') as ->.
  { revert Hrest. generalize s1 result s'.
    change (preserves same_engine_calls
              (bind (modify (set_raw (Some r')))
                 (fun _ =>
                    bind (if decide (res = snowboyResultSilence)
                          then bind AudioFormat
                                 (fun fmt =>
                                    let '(sampleRate, numChannels, bitDepth) := fmt in
                                    bind (eval (elapse_time (Z.of_nat (length data))
                                                  sampleRate numChannels bitDepth))
                                      (fun dataElapseTime =>
                                         modify (fun d =>
                                                   set_silenceElapsed
                                                     (add64 (silenceElapsed d)
                                                        dataElapseTime) d)))
                          else modify (set_silenceElapsed 0))
                      (fun _ => ret res)))).
    quiet.
    - unfold AudioFormat. quiet. apply quiet_initialize.
    - match goal with fmt : (Z * Z * Z)%type |- _ =>
        destruct fmt as [[sampleRate numChannels] bitDepth]
      end.
      unfold eval. quiet. }
  subst s1. simpl. by rewrite engine_calls_app.
Qed.

Lemma detect_and_route_call data s e s' :
  data <> [] ->
  detect_and_route data s = Ok e s' ->
  engine_calls (log s')
  = engine_calls (log s) ++ [(data, Z.quot (Z.of_nat (length data)) 2)].
Proof.
  intros Hne. unfold detect_and_route, bind.
  destruct (runDetection data s) as [result s1|] eqn:Hrun; [|done].
  intros Hroute. rewrite (quiet_route _ _ _ _ Hroute).
  by apply runDetection_call with result.
Qed.

Lemma trail_length data bytes : length (trail data bytes) = S (length data).
Proof.
  revert bytes. induction data as [|rd rest IH]; intros bytes; simpl; [done|].
  by rewrite IH.
Qed.

Lemma read_loop_trail data bytes s s' :
  length bytes = 2048%nat ->
  Forall (fun rd => rd_err rd = None /\ rd_data rd <> []) data ->
  read_loop data bytes s = Ok None s' ->
  engine_calls (log s')
  = engine_calls (log s) ++ map (fun b => (b, 1024)) (trail data bytes).
Proof.
  revert bytes s. induction data as [|rd rest IH]; intros bytes s Hlen Hall.
  - simpl. intros Hpass.
    assert (bytes <> []) as Hne by (intros ->; discriminate Hlen).
    rewrite (detect_and_route_call _ _ _ _ Hne Hpass).
    by rewrite Hlen.
  - apply Forall_cons in Hall as [[Herr Hdata] Hall]. simpl. rewrite Herr.
    assert (length (read_into bytes (rd_data rd)) = 2048%nat) as Hlen'
      by (by rewrite read_into_length).
    destruct (decide _) as [Hn|_].
    { unfold read_n in Hn. rewrite length_take, Hlen in Hn.
      destruct (rd_data rd); [done | simpl in Hn; lia]. }
    unfold bind.
    destruct (detect_and_route _ s) as [[e0|] s1|] eqn:Hpass; [done| |done].
    intros Hrest. rewrite (IH _ _ Hlen' Hall Hrest).
    assert (read_into bytes (rd_data rd) <> []) as Hne
      by (intros Hnil; rewrite Hnil in Hlen'; discriminate Hlen').
    rewrite (detect_and_route_call _ _ _ _ Hne Hpass).
    rewrite Hlen'. by rewrite <- app_assoc.
Qed.

(** X7: when every read of the source succeeds with at least one byte
    and [ReadAndDetect] returns nil, the engine has been called once
    per read and once more at the end of the stream, each time on the
    whole buffer (1024 samples): on the buffer as each read left it,
    and finally again on the buffer as the last read left it. *)
Theorem ReadAndDetect_engine_calls data s s' :
  Forall (fun rd => rd_err rd = None /\ rd_data rd <> []) data ->
  ReadAndDetect data s = Ok None s' ->
  engine_calls (log s')
  = engine_calls (log s)
    ++ map (fun b => (b, 1024)) (trail data (repeat x00 2048))
  /\ length (trail data (repeat x00 2048)) = S (length data).
Proof.
  intros Hall. unfold ReadAndDetect. unfold bind at 1.
  destruct (initialize s) as [[] s0|] eqn:Hinit; [|done]. intros Hloop.
  split; [|apply trail_length].
  rewrite <- (quiet_initialize _ _ _ Hinit).
  apply read_loop_trail; [apply repeat_length | done | done].
Qed.

End Passes.

Lemma ReadAndDetect_engine_calls_witness :
  let source : Reader := [ {| rd_data := [x01; x02]; rd_err := None |} ] in
  exists s' : state unit,
    @ReadAndDetect unit (fixed_engine 0 16000 1 16) source (fresh one_hotword)
    = Ok None s'
    /\ engine_calls (log s')
       = map (fun b => (b, 1024)) (trail source (repeat x00 2048)).
Proof.
  intros source.
  destruct (@ReadAndDetect unit (fixed_engine 0 16000 1 16) source
              (fresh one_hotword)) as [[e|] s'|] eqn:Hrun;
    [vm_compute in Hrun; discriminate Hrun | | vm_compute in Hrun; discriminate Hrun].
  exists s'. split; [reflexivity|].
  refine (proj1 (@ReadAndDetect_engine_calls unit (fixed_engine 0 16000 1 16)
                   source (fresh one_hotword) s' _ Hrun)).
  repeat constructor; discriminate.
Defined.

(** ** Panics *)

Section Panics.

Context {R : Type} {engine : SnowboyDetect R}.
Implicit Types (s : state R) (d : Detector R).

Lemma elapse_time_defined len (r : R) :
  sound_format r <->
  exists dt, elapse_time len (SampleRate r) (NumChannels r) (BitsPerSample r)
             = Some dt.
Proof.
  unfold sound_format, elapse_time, div64.
  destruct (decide _) as [H0|Hn0]; split; eauto; try done.
  by intros [dt ?].
Qed.







(** X9: on a non-empty chunk [runDetection] panics when the detector
    holds no engine; with an engine and the detector initialized it
    panics exactly when the engine answers with the silence code and
    the format it reports makes the divisor of the duration zero (for
    instance a bit depth below 8). *)
Theorem runDetection_panics data s :
  data <> [] ->
  (raw (det s) = None -> runDetection data s = Panic)
  /\ (forall r result r',
        initialized (det s) = true ->
        raw (det s) = Some r ->
        RunDetection r data (Z.quot (Z.of_nat (length data)) 2)
        = (result, r') ->
        (runDetection data s = Panic
         <-> result = snowboyResultSilence /\ ~ sound_format r')).
Proof.
  intros Hne.
  assert (Z.of_nat (length data) <> 0) as Hlen by (by rewrite length_zero_nil).
  split.
  - intros Hraw. unfold runDetection.
    destruct (decide _); [done|]. unfold_m. by rewrite Hraw.
  - intros r result r' Hinit Hraw Hrun.
    destruct (decide (result = snowboyResultSilence)) as [->|Hres].
    + rewrite (elapse_time_defined (Z.of_nat (length data)) r').
      unfold runDetection. destruct (decide _); [done|].
      unfold_m. rewrite Hraw, Hrun. simpl. rewrite Hinit. simpl.
      destruct (elapse_time _ _ _ _) as [dt|]; split.
      * done.
      * intros [_ Hnone]. destruct Hnone. eauto.
      * intros _. split; [done|]. by intros [dt ?].
      * done.
    + rewrite (runDetection_other _ _ _ _ _ Hne Hraw Hrun Hres).
      split; [done|]. by intros [? _].
Qed.

End Panics.


Lemma runDetection_panics_witness :
  @runDetection unit (fixed_engine snowboyResultSilence 16000 1 4)
    [x00; x00] (fresh initialized_detector) = Panic
  /\ @runDetection unit half_second_silence [x00; x00] (fresh one_hotword)
     = Panic.
Proof.
  split.
  - apply (proj2 (@runDetection_panics unit
                    (fixed_engine snowboyResultSilence 16000 1 4)
                    [x00; x00] (fresh initialized_detector)
                    ltac:(discriminate))
             tt snowboyResultSilence tt eq_refl eq_refl eq_refl).
    split; [reflexivity|]. intros Hsound. by apply Hsound.
  - apply (proj1 (@runDetection_panics unit half_second_silence
                    [x00; x00] (fresh one_hotword) ltac:(discriminate))).
    reflexivity.
Defined.

(** ** Registration order and result codes *)

Section Order.

Context {R : Type} {engine : SnowboyDetect R}.
Implicit Types (s : state R) (d : Detector R).

(** X10: after registering a list of hotwords on a new detector, the
    handler map has one entry per hotword, the hotword at position [i]
    (from 0) is bound to result code [i + 1], and routing that code
    resets the silence accumulator and calls that hotword's handler
    with its name, also when a silence handler is registered
    afterwards; every code above the number of hotwords is answered
    with [NoHandler]. *)
Theorem hotwords_route_in_order resourceFile hs i hotword handler l :
  hs !! i = Some (hotword, handler) ->
  let d : Detector R := register_all hs (NewDetector resourceFile) in
  map_len (handlers d) = Z.of_nat (length hs)
  /\ map_get (handlers d) (Z.of_nat i + 1)
     = Some {| hk_Handler := handler; keyword := Name hotword |}
  /\ route (Z.of_nat i + 1) {| det := d; log := l |}
     = Ok None {| det := set_silenceElapsed 0 d;
                  log := l ++ [EvDetected handler (Name hotword)] |}
  /\ (forall threshold hsil,
        route (Z.of_nat i + 1)
          {| det := HandleSilence threshold hsil d; log := l |}
        = Ok None {| det := set_silenceElapsed 0
                              (HandleSilence threshold hsil d);
                     log := l ++ [EvDetected handler (Name hotword)] |})
  /\ (forall k, Z.of_nat (length hs) < k ->
                route k {| det := d; log := l |}
                = Ok (Some NoHandler) {| det := d; log := l |}).
Proof.
  intros Hi d.
  destruct (register_all_binds hs (NewDetector resourceFile : Detector R) 0
              (dense_NewDetector _)) as ((Hlen & Hdom) & _ & Hnew).
  specialize (Hnew i hotword handler Hi). simpl in Hlen, Hnew.
  split; [exact Hlen|]. split; [exact Hnew|]. split.
  { rewrite (route_fires _ _
               {| hk_Handler := handler; keyword := Name hotword |});
      unfold snowboyResultError, snowboyResultNoDetection,
        snowboyResultSilence; try lia; [done|]. exact Hnew. }
  split.
  { intros threshold hsil. by apply hotwords_then_silence_route. }
  intros k Hk. apply route_unbound;
    unfold snowboyResultError, snowboyResultNoDetection; try lia.
  apply eq_None_not_Some. intros Hsome. apply Hdom in Hsome. simpl in Hsome. lia.
Qed.

(** X11: after registering a non-empty list of hotwords whose model
    identifiers contain no comma, with or without a silence handler
    registered after them, the joined model string and the joined
    sensitivity string each consist of as many comma-separated fields
    as there are hotwords. *)
Theorem joined_strings_one_field_per_hotword resourceFile hs threshold hsil :
  hs <> [] ->
  Forall (fun p => strings.Count (Model p.1) "," = 0%nat) hs ->
  let d : Detector R := register_all hs (NewDetector resourceFile) in
  ((strings.Count (modelStr d) "," + 1 = length hs)%nat
   /\ (strings.Count (sensitivityStr d) "," + 1 = length hs)%nat)
  /\ ((strings.Count (modelStr (HandleSilence threshold hsil d)) "," + 1
       = length hs)%nat
      /\ (strings.Count (sensitivityStr (HandleSilence threshold hsil d)) ","
          + 1 = length hs)%nat).
Proof.
  intros Hne Hall d.
  pose proof (@register_all_fields R resourceFile hs Hne Hall) as Hfields.
  split; exact Hfields.
Qed.

Lemma shifted_HandleSilence resourceFile threshold hsil :
  shifted (HandleSilence threshold hsil (NewDetector resourceFile : Detector R)) 0.
Proof.
  split; [reflexivity|]. intros k. rewrite HandleSilence_lookup.
  destruct (decide _) as [->|Hk]; simpl.
  - split; [by left | eauto].
  - split; [by intros [? ?] | intros [?|?]; [done | lia]].
Qed.

Lemma Handle_shifted hotword handler d n :
  shifted d n ->
  shifted (Handle hotword handler d) (S n)
  /\ forall k, map_get (handlers (Handle hotword handler d)) k
               = if decide (k = Z.of_nat n + 2)
                 then Some {| hk_Handler := handler; keyword := Name hotword |}
                 else map_get (handlers d) k.
Proof.
  intros [Hlen Hdom].
  assert (forall k, map_get (handlers (Handle hotword handler d)) k
                    = if decide (k = Z.of_nat n + 2)
                      then Some {| hk_Handler := handler;
                                   keyword := Name hotword |}
                      else map_get (handlers d) k) as Hlookup.
  { intros k. rewrite Handle_handlers, Hlen. simpl.
    replace (Z.of_nat n + 1 + 1) with (Z.of_nat n + 2) by lia.
    destruct (decide _) as [->|Hk].
    - by rewrite lookup_insert_eq.
    - rewrite lookup_insert_ne by done. apply map_get_make. }
  split; [|exact Hlookup]. split.
  - rewrite Handle_handlers, Hlen. simpl.
    rewrite map_size_insert_None.
    + assert (Z.of_nat (size (map_make (handlers d))) = Z.of_nat n + 1) as Hsize.
      { destruct (handlers d) as [m|]; simpl in Hlen |- *; [lia|].
        rewrite map_size_empty. lia. }
      lia.
    + rewrite map_get_make. apply eq_None_not_Some. rewrite Hdom.
      unfold snowboyResultSilence. lia.
  - intros k. rewrite Hlookup. destruct (decide _) as [->|Hk].
    + split; [intros _; right; lia | eauto].
    + rewrite Hdom. unfold snowboyResultSilence. lia.
Qed.

Lemma register_all_shifted hs d n :
  shifted d n ->
  shifted (register_all hs d) (n + length hs)
  /\ (forall k, k < Z.of_nat n + 2 ->
                map_get (handlers (register_all hs d)) k
                = map_get (handlers d) k)
  /\ (forall i hotword handler,
        hs !! i = Some (hotword, handler) ->
        map_get (handlers (register_all hs d)) (Z.of_nat (n + i) + 2)
        = Some {| hk_Handler := handler; keyword := Name hotword |}).
Proof.
  revert d n. induction hs as [|[hw h] hs IH]; intros d n Hd; simpl.
  - rewrite Nat.add_0_r. split; [done|]. split; [done|]. by intros i ? ? [=].
  - destruct (Handle_shifted hw h d n Hd) as [Hd' Hlookup].
    destruct (IH _ _ Hd') as (Hshifted & Hold & Hnew).
    replace (n + S (length hs))%nat with (S n + length hs)%nat by lia.
    split; [done|]. split.
    + intros k Hk. rewrite Hold by lia. rewrite Hlookup.
      destruct (decide _); [lia | done].
    + intros [|i] hotword handler Hi; simpl in Hi.
      * injection Hi as <- <-. rewrite Nat.add_0_r, Hold by lia.
        rewrite Hlookup. by destruct (decide _).
      * replace (n + S i)%nat with (S n + i)%nat by lia. by apply Hnew.
Qed.

(** X12: when the silence handler is registered on a new detector
    before the hotwords, the hotword at position [i] (from 0) is bound
    to result code [i + 2]: code 1 has no binding and is answered with
    [NoHandler], the silence binding is kept, and the handler map has
    one entry more than there are hotwords. *)
Theorem hotwords_after_silence_are_shifted
        resourceFile threshold hsil hs i hotword handler l :
  hs !! i = Some (hotword, handler) ->
  let d : Detector R :=
    register_all hs (HandleSilence threshold hsil (NewDetector resourceFile)) in
  map_get (handlers d) (Z.of_nat i + 2)
  = Some {| hk_Handler := handler; keyword := Name hotword |}
  /\ map_get (handlers d) 1 = None
  /\ map_get (handlers d) snowboyResultSilence
     = Some {| hk_Handler := hsil; keyword := "silence" |}
  /\ map_len (handlers d) = Z.of_nat (length hs) + 1
  /\ route 1 {| det := d; log := l |}
     = Ok (Some NoHandler) {| det := d; log := l |}.
Proof.
  intros Hi d.
  destruct (register_all_shifted hs _ 0
              (shifted_HandleSilence resourceFile threshold hsil))
    as ((Hlen & Hdom) & Hold & Hnew).
  specialize (Hnew i hotword handler Hi). simpl in Hlen, Hnew.
  assert (map_get (handlers d) 1 = None) as H1.
  { apply eq_None_not_Some. intros Hsome. apply Hdom in Hsome.
    unfold snowboyResultSilence in Hsome. simpl in Hsome. lia. }
  split; [exact Hnew|]. split; [exact H1|]. split.
  { subst d. rewrite Hold by (unfold snowboyResultSilence; simpl; lia).
    rewrite HandleSilence_lookup. by destruct (decide _). }
  split; [exact Hlen|]. by apply route_unbound.
Qed.

(** X13: registering the silence handler again replaces the earlier
    registration: the detector is the one a single registration of the
    later handler and threshold gives, hotword bindings and the number
    of entries included. *)
Theorem HandleSilence_replaces t1 h1 t2 h2 d :
  HandleSilence t2 h2 (HandleSilence t1 h1 d) = HandleSilence t2 h2 d
  /\ map_len (handlers (HandleSilence t2 h2 (HandleSilence t1 h1 d)))
     = map_len (handlers (HandleSilence t1 h1 d)).
Proof.
  assert (HandleSilence t2 h2 (HandleSilence t1 h1 d) = HandleSilence t2 h2 d)
    as Heq.
  { unfold HandleSilence. simpl. unfold set_handlers. simpl.
    by rewrite insert_insert_eq. }
  split; [exact Heq|]. rewrite Heq. unfold HandleSilence. simpl.
  destruct (map_make (handlers d) !! snowboyResultSilence) as [hk|] eqn:Hget.
  - by rewrite !map_size_insert_Some.
  - by rewrite !map_size_insert_None.
Qed.

End Order.

Lemma hotwords_route_in_order_witness :
  @route unit 3 {| det := register_all three_hotwords
                            (NewDetector "resources/common.res");
                   log := [] |}
  = Ok None {| det := set_silenceElapsed 0
                        (register_all three_hotwords
                           (NewDetector "resources/common.res"));
               log := [EvDetected (handlerObj 3) "jarvis"] |}.
Proof.
  destruct (@hotwords_route_in_order unit "resources/common.res"
              three_hotwords 2 (NewHotword "resources/jarvis.umdl" half)
              (handlerObj 3) [] eq_refl) as (_ & _ & Hroute & _).
  exact Hroute.
Defined.

Lemma joined_strings_one_field_per_hotword_witness :
  let d : Detector unit :=
    register_all three_hotwords (NewDetector "resources/common.res") in
  (strings.Count (modelStr d) "," + 1 = 3)%nat
  /\ (strings.Count (sensitivityStr d) "," + 1 = 3)%nat.
Proof.
  refine (proj1 (@joined_strings_one_field_per_hotword unit
                   "resources/common.res" three_hotwords 0 (handlerObj 9)
                   _ _)).
  - discriminate.
  - repeat constructor.
Defined.

Lemma hotwords_after_silence_are_shifted_witness :
  let d : Detector unit :=
    register_all three_hotwords
      (HandleSilence time_Second (handlerObj 9)
         (NewDetector "resources/common.res")) in
  map_get (handlers d) 2
  = Some {| hk_Handler := handlerObj 1; keyword := "alexa" |}
  /\ map_get (handlers d) 1 = None.
Proof.
  destruct (@hotwords_after_silence_are_shifted unit "resources/common.res"
              time_Second (handlerObj 9) three_hotwords 0
              (NewDefaultHotword "resources/alexa.umdl") (handlerObj 1) []
              eq_refl) as (Hbound & Hone & _).
  split; [exact Hbound | exact Hone].
Defined.

(** ** Runs of silence *)

Section Silence.

Context {R : Type} {engine : SnowboyDetect R}.
Implicit Types (s : state R) (d : Detector R).

Lemma add64_exact (a b : Z) :
  - 2 ^ 63 <= a + b < 2 ^ 63 -> add64 a b = a + b.
Proof.
  intros Hrange. unfold add64, wrap64.
  rewrite Z.mod_small by lia. lia.
Qed.

(** A run of silence chunks that stays under the threshold only
    accumulates. *)
Lemma passes_suppressed chunks s r0 r1 dt hk :
  raw (det s) = Some r0 ->
  initialized (det s) = true ->
  map_get (handlers (det s)) snowboyResultSilence = Some hk ->
  0 <= dt ->
  0 <= silenceElapsed (det s) ->
  silent_run dt r0 chunks r1 ->
  silenceElapsed (det s) + Z.of_nat (length chunks) * dt
  < silenceThreshold (det s) ->
  silenceElapsed (det s) + Z.of_nat (length chunks) * dt < 2 ^ 63 ->
  exists s1,
    passes chunks s = Ok None s1
    /\ raw (det s1) = Some r1
    /\ initialized (det s1) = true
    /\ handlers (det s1) = handlers (det s)
    /\ silenceThreshold (det s1) = silenceThreshold (det s)
    /\ silenceElapsed (det s1)
       = silenceElapsed (det s) + Z.of_nat (length chunks) * dt
    /\ calls (log s1) = calls (log s).
Proof.
  revert s r0. induction chunks as [|chunk rest IH];
    intros s r0 Hraw Hinit Hget Hdt Hel Hrun Hlt Hmax.
  - simpl in Hrun. subst r1. exists s. simpl. repeat split; try done. lia.
  - destruct Hrun as (r & Hchunk & Hrun).
    rewrite length_cons, Nat2Z.inj_succ in Hlt, Hmax.
    assert (add64 (silenceElapsed (det s)) dt = silenceElapsed (det s) + dt)
      as Hadd by (apply add64_exact; nia).
    pose proof (detect_silence_below s chunk r0 r dt hk Hraw Hinit Hchunk Hget)
      as Hpass.
    rewrite Hadd in Hpass.
    assert (silenceElapsed (det s) + dt < silenceThreshold (det s)) as Hstep
      by nia.
    specialize (Hpass Hstep).
    match type of Hpass with _ = Ok None ?next => set (s' := next) in * end.
    edestruct (IH s' r) as (s1 & Hrest & Hr1 & Hi1 & Hh1 & Ht1 & He1 & Hc1);
      [reflexivity | exact Hinit | exact Hget | exact Hdt | simpl; lia
      | exact Hrun | simpl; nia | simpl; nia |].
    exists s1. simpl passes. unfold bind. rewrite Hpass.
    split; [exact Hrest|]. split; [done|]. split; [done|].
    split; [by rewrite Hh1|]. split; [by rewrite Ht1|].
    split.
    + rewrite He1, length_cons, Nat2Z.inj_succ. simpl. lia.
    + rewrite Hc1. simpl. rewrite calls_app. simpl. by rewrite app_nil_r.
Qed.

(** X14: with a silence handler bound, a run of consecutive silence
    chunks of [dt] nanoseconds each that keeps the accumulated duration
    under the threshold calls no handler and only adds up
    [silenceElapsed]; the next silence chunk, the first with which the
    accumulated duration reaches the threshold, calls the silence
    handler once and sets [silenceElapsed] back to zero. *)
Theorem silence_fires_when_threshold_is_reached
        chunks final s r0 r1 r2 dt hk :
  raw (det s) = Some r0 ->
  initialized (det s) = true ->
  map_get (handlers (det s)) snowboyResultSilence = Some hk ->
  0 <= dt ->
  0 <= silenceElapsed (det s) ->
  silent_run dt r0 chunks r1 ->
  silence_lasting dt r1 final r2 ->
  silenceElapsed (det s) + Z.of_nat (length chunks) * dt
  < silenceThreshold (det s) ->
  silenceThreshold (det s)
  <= silenceElapsed (det s) + (Z.of_nat (length chunks) + 1) * dt ->
  silenceElapsed (det s) + (Z.of_nat (length chunks) + 1) * dt < 2 ^ 63 ->
  exists s1 s2,
    passes chunks s = Ok None s1
    /\ calls (log s1) = calls (log s)
    /\ silenceElapsed (det s1)
       = silenceElapsed (det s) + Z.of_nat (length chunks) * dt
    /\ detect_and_route final s1 = Ok None s2
    /\ calls (log s2) = calls (log s) ++ [(hk_Handler hk, keyword hk)]
    /\ silenceElapsed (det s2) = 0.
Proof.
  intros Hraw Hinit Hget Hdt Hel Hrun Hfinal Hlt Hge Hmax.
  destruct (passes_suppressed chunks s r0 r1 dt hk Hraw Hinit Hget Hdt Hel
              Hrun Hlt ltac:(nia))
    as (s1 & Hpasses & Hr1 & Hi1 & Hh1 & Ht1 & He1 & Hc1).
  assert (add64 (silenceElapsed (det s1)) dt = silenceElapsed (det s1) + dt)
    as Hadd by (apply add64_exact; nia).
  assert (map_get (handlers (det s1)) snowboyResultSilence = Some hk) as Hget1
    by (by rewrite Hh1).
  assert (silenceThreshold (det s1) <= add64 (silenceElapsed (det s1)) dt)
    as Hreach by (rewrite Hadd, Ht1, He1; nia).
  pose proof (detect_silence_reached s1 final r1 r2 dt hk Hr1 Hi1 Hfinal
                Hget1 Hreach) as Hfire.
  eexists s1, _. split; [exact Hpasses|]. split; [exact Hc1|].
  split; [exact He1|]. split; [exact Hfire|].
  simpl. rewrite calls_app, Hc1. done.
Qed.

(** X15: with a threshold of zero (or below), an empty accumulator and
    a silence handler bound, every silence chunk of a run calls the
    silence handler: a run of [n] chunks calls it [n] times and leaves
    [silenceElapsed] at zero. *)
Theorem zero_threshold_fires_on_every_chunk chunks s r0 r1 dt hk :
  raw (det s) = Some r0 ->
  initialized (det s) = true ->
  map_get (handlers (det s)) snowboyResultSilence = Some hk ->
  silenceThreshold (det s) <= 0 ->
  silenceElapsed (det s) = 0 ->
  0 <= dt < 2 ^ 63 ->
  silent_run dt r0 chunks r1 ->
  exists s1,
    passes chunks s = Ok None s1
    /\ calls (log s1)
       = calls (log s) ++ repeat (hk_Handler hk, keyword hk) (length chunks)
    /\ silenceElapsed (det s1) = 0.
Proof.
  revert s r0. induction chunks as [|chunk rest IH];
    intros s r0 Hraw Hinit Hget Hthr Hel Hdt Hrun.
  - exists s. simpl. by rewrite app_nil_r.
  - destruct Hrun as (r & Hchunk & Hrun).
    assert (add64 (silenceElapsed (det s)) dt = dt) as Hadd
      by (rewrite Hel; apply add64_exact; lia).
    assert (silenceThreshold (det s) <= add64 (silenceElapsed (det s)) dt)
      as Hreach by (rewrite Hadd; lia).
    pose proof (detect_silence_reached s chunk r0 r dt hk Hraw Hinit Hchunk
                  Hget Hreach) as Hfire.
    match type of Hfire with _ = Ok None ?next => set (s' := next) in * end.
    edestruct (IH s' r) as (s1 & Hrest & Hc1 & He1);
      [reflexivity | exact Hinit | exact Hget | exact Hthr | reflexivity
      | exact Hdt | exact Hrun |].
    exists s1. simpl passes. unfold bind. rewrite Hfire.
    split; [exact Hrest|]. split; [|exact He1].
    rewrite Hc1. simpl. rewrite calls_app. simpl.
    by rewrite <- app_assoc.
Qed.

End Silence.

Lemma silence_fires_when_threshold_is_reached_witness :
  exists s1 s2 : state unit,
    @passes unit half_second_silence [zero_chunk; zero_chunk; zero_chunk]
      {| det := listening tt 0; log := [] |} = Ok None s1
    /\ calls (log s1) = []
    /\ silenceElapsed (det s1) = 1500000000
    /\ @detect_and_route unit half_second_silence zero_chunk s1 = Ok None s2
    /\ calls (log s2) = [(handlerObj 2, "silence"%string)]
    /\ silenceElapsed (det s2) = 0.
Proof.
  refine (@silence_fires_when_threshold_is_reached unit half_second_silence
            [zero_chunk; zero_chunk; zero_chunk] zero_chunk
            {| det := listening tt 0; log := [] |} tt tt tt (time_Second / 2)
            {| hk_Handler := handlerObj 2; keyword := "silence" |}
            eq_refl eq_refl eq_refl _ _ _ half_second_chunk _ _ _);
    try (by vm_compute).
  repeat (eexists; split; [apply half_second_chunk|]). reflexivity.
Defined.

Lemma zero_threshold_fires_on_every_chunk_witness :
  exists s1 : state unit,
    @passes unit half_second_silence [zero_chunk; zero_chunk]
      {| det := HandleSilence 0 (handlerObj 2) initialized_detector;
         log := [] |} = Ok None s1
    /\ calls (log s1)
       = [(handlerObj 2, "silence"%string); (handlerObj 2, "silence"%string)]
    /\ silenceElapsed (det s1) = 0.
Proof.
  refine (@zero_threshold_fires_on_every_chunk unit half_second_silence
            [zero_chunk; zero_chunk]
            {| det := HandleSilence 0 (handlerObj 2) initialized_detector;
               log := [] |} tt tt (time_Second / 2)
            {| hk_Handler := handlerObj 2; keyword := "silence" |}
            eq_refl eq_refl eq_refl _ eq_refl _ _);
    try (by vm_compute).
  repeat (eexists; split; [apply half_second_chunk|]). reflexivity.
Defined.

(** ** Names derived from model paths *)

Lemma Split_nonempty (s : string) (sep : ascii) : strings.Split s sep <> [].
Proof.
  destruct s as [|c s]; simpl; [done|].
  destruct (Ascii.eqb c sep); [done|]. by destruct (strings.Split s sep).
Qed.

Lemma Split_parts_no_sep (s : string) (sep : ascii) :
  Forall (fun p => strings.Count p sep = 0%nat) (strings.Split s sep).
Proof.
  induction s as [|c s IH]; simpl; [by repeat constructor|].
  destruct (Ascii.eqb c sep) eqn:Hc; [by constructor|].
  destruct (strings.Split s sep) as [|p ps].
  { constructor; [simpl; by rewrite Hc | constructor]. }
  apply Forall_cons in IH as [Hp Hps]. constructor; [|done].
  simpl. by rewrite Hc.
Qed.

Lemma Split_no_sep (s : string) (sep : ascii) :
  strings.Count s sep = 0%nat -> strings.Split s sep = [s].
Proof.
  induction s as [|c s IH]; simpl; [done|].
  destruct (Ascii.eqb c sep); [done|]. intros Hs. by rewrite IH.
Qed.

Lemma last_cons_nonempty {A} (x d : A) (l : list A) :
  l <> [] -> List.last (x :: l) d = List.last l d.
Proof. by destruct l. Qed.

(** The final segment is what follows the last separator. *)
Lemma Split_last_app (dir stem : string) (sep : ascii) :
  strings.Count stem sep = 0%nat ->
  List.last (strings.Split (dir +:+ String sep stem) sep) EmptyString = stem.
Proof.
  intros Hstem. induction dir as [|c dir IH].
  - change (List.last (strings.Split (String sep stem) sep) EmptyString = stem).
    simpl. rewrite Ascii.eqb_refl, Split_no_sep by done. done.
  - rewrite append_cons. simpl strings.Split.
    destruct (Ascii.eqb c sep).
    + rewrite last_cons_nonempty by apply Split_nonempty. exact IH.
    + destruct (strings.Split (dir +:+ String sep stem) sep) as [|p ps] eqn:Hsplit;
        [by destruct (Split_nonempty (dir +:+ String sep stem) sep)|].
      destruct ps as [|q ps].
      * exfalso. clear IH.
        assert (length (strings.Split (dir +:+ String sep stem) sep) >= 2)%nat
          as Hlen; [|rewrite Hsplit in Hlen; simpl in Hlen; lia].
        clear Hsplit. induction dir as [|k dir IHdir].
        -- change (length (strings.Split (String sep stem) sep) >= 2)%nat.
           simpl. rewrite Ascii.eqb_refl. simpl.
           pose proof (Split_nonempty stem sep).
           destruct (strings.Split stem sep); [done | simpl; lia].
        -- rewrite append_cons. simpl. destruct (Ascii.eqb k sep);
             [simpl; lia|].
           destruct (strings.Split (dir +:+ String sep stem) sep);
             simpl in *; lia.
      * exact IH.
Qed.

Lemma last_byte_app (pre tail : string) :
  tail <> EmptyString -> last_byte (pre +:+ tail) = last_byte tail.
Proof.
  intros Htail. induction pre as [|c pre IH]; [done|].
  rewrite append_cons. simpl. rewrite IH.
  destruct (pre +:+ tail) eqn:Happ; [|done].
  destruct pre; [by destruct tail | done].
Qed.

(** The final segment is a suffix of the string; it is the whole string
    when there is one segment only. *)
Lemma Split_last_suffix (s : string) (sep : ascii) :
  exists pre,
    s = pre +:+ List.last (strings.Split s sep) EmptyString
    /\ (length (strings.Split s sep) = 1%nat -> pre = EmptyString).
Proof.
  induction s as [|c s (pre & Hs & Hone)]; [by exists EmptyString|].
  change (strings.Split (String c s) sep)
    with (if Ascii.eqb c sep then EmptyString :: strings.Split s sep
          else match strings.Split s sep with
               | [] => [String c EmptyString]
               | p :: ps => String c p :: ps
               end).
  destruct (Ascii.eqb c sep).
  - exists (String c pre).
    rewrite last_cons_nonempty by apply Split_nonempty.
    split; [by rewrite append_cons, <- Hs|].
    pose proof (Split_nonempty s sep).
    destruct (strings.Split s sep); [done | simpl; lia].
  - destruct (strings.Split s sep) as [|p [|q ps]] eqn:Hsplit.
    + by destruct (Split_nonempty s sep).
    + exists EmptyString. specialize (Hone eq_refl). subst pre.
      simpl in Hs. by rewrite Hs.
    + exists (String c pre).
      rewrite (last_cons_nonempty (String c p)) by done.
      rewrite (last_cons_nonempty p) in Hs by done.
      split; [by rewrite append_cons, <- Hs|]. simpl. lia.
Qed.

Lemma TrimRight_last_byte (s cutset : string) (c : ascii) :
  last_byte (strings.TrimRight s cutset) = Some c ->
  strings.contains_byte cutset c = false.
Proof.
  induction s as [|k s IH]; [done|]. simpl.
  destruct (strings.TrimRight s cutset) as [|a t] eqn:Htrim.
  - destruct (strings.contains_byte cutset k) eqn:Hk; [done|].
    by intros [= <-].
  - exact IH.
Qed.

(** X16: [NewHotword] stores the model identifier and the sensitivity
    as given, and the derived name contains no path separator. *)
Theorem NewHotword_name_has_no_separator model sensitivity :
  Model (NewHotword model sensitivity) = model
  /\ Sensitivity (NewHotword model sensitivity) = sensitivity
  /\ strings.Count (Name (NewHotword model sensitivity)) "/" = 0%nat.
Proof.
  split; [done|]. split; [done|]. simpl.
  pose proof (Split_parts_no_sep (strings.TrimRight model umdl) "/") as Hall.
  pose proof (Split_nonempty (strings.TrimRight model umdl) "/") as Hne.
  induction Hall as [|p ps Hp Hps IH]; [done|].
  destruct ps as [|q ps]; [exact Hp|]. by apply IH.
Qed.

(** X17: a name derived by [NewHotword] is empty or ends in a character
    other than '.', 'u', 'm', 'd' and 'l': every trailing character
    from that set is cut off, whether or not it belongs to an
    extension. *)
Theorem NewHotword_name_never_ends_in_cutset model sensitivity c :
  last_byte (Name (NewHotword model sensitivity)) = Some c ->
  c <> "."%char /\ c <> "u"%char /\ c <> "m"%char /\ c <> "d"%char
  /\ c <> "l"%char.
Proof.
  simpl. intros Hlast.
  destruct (Split_last_suffix (strings.TrimRight model umdl) "/")
    as (pre & Hs & _).
  assert (last_byte (strings.TrimRight model umdl) = Some c) as Htrim.
  { rewrite Hs, last_byte_app; [done|]. intros Hnil.
    by rewrite Hnil in Hlast. }
  apply TrimRight_last_byte in Htrim.
  repeat split; intros ->; discriminate Htrim.
Qed.

(** X18: for a model path [dir/stem.umdl] whose stem contains no path
    separator and ends in a character outside the set of characters of
    ".umdl", the derived name is the stem; the same holds without a
    directory part. *)
Theorem NewHotword_name_of_path dir stem c sensitivity :
  strings.contains_byte umdl c = false ->
  strings.Count (stem +:+ String c EmptyString) "/" = 0%nat ->
  Name (NewHotword
          ((dir +:+ String "/" (stem +:+ String c EmptyString)) +:+ umdl)
          sensitivity)
  = stem +:+ String c EmptyString
  /\ Name (NewHotword ((stem +:+ String c EmptyString) +:+ umdl) sensitivity)
     = stem +:+ String c EmptyString.
Proof.
  intros Hc Hstem. split; simpl.
  - rewrite TrimRight_app_cutset by reflexivity.
    assert (dir +:+ String "/" (stem +:+ String c EmptyString)
            = (dir +:+ String "/" stem) +:+ String c EmptyString) as ->.
    { clear. induction dir as [|k dir IH]; [done|].
      by rewrite !append_cons, IH. }
    rewrite TrimRight_keeps by done.
    assert ((dir +:+ String "/" stem) +:+ String c EmptyString
            = dir +:+ String "/" (stem +:+ String c EmptyString)) as ->.
    { clear. induction dir as [|k dir IH]; [done|].
      by rewrite !append_cons, IH. }
    by apply Split_last_app.
  - rewrite TrimRight_app_cutset by reflexivity.
    rewrite TrimRight_keeps by done. by rewrite Split_no_sep.
Qed.

Lemma NewHotword_name_never_ends_in_cutset_witness :
  last_byte (Name (NewHotword "models/drum.umdl" half)) = Some "r"%char
  /\ "r"%char <> "m"%char.
Proof.
  split; [reflexivity|].
  apply (@NewHotword_name_never_ends_in_cutset "models/drum.umdl" half "r").
  reflexivity.
Defined.

Lemma NewHotword_name_of_path_witness :
  Name (NewHotword "resources/models/jarvis.umdl" half) = "jarvis"%string
  /\ Name (NewHotword "jarvis.umdl" half) = "jarvis"%string.
Proof.
  exact (@NewHotword_name_of_path "resources/models" "jarvi" "s" half
           eq_refl eq_refl).
Defined.

(** ** Outcomes of routing and of reading *)

Section Outcomes.

Context {R : Type} {engine : SnowboyDetect R}.
Implicit Types (s : state R) (d : Detector R).


(** A read that reports an error, end of stream included, is the last
    one the loop performs. *)
Lemma read_loop_stops_at_error before rd rest bytes :
  rd_err rd <> None ->
  read_loop (before ++ rd :: rest) bytes = read_loop (before ++ [rd]) bytes.
Proof.
  intros Herr. revert bytes.
  induction before as [|rd0 before IH]; intros bytes; simpl.
  - by destruct (rd_err rd).
  - destruct (rd_err rd0); [done|].
    destruct (decide _); by rewrite IH.
Qed.

(** X20: [ReadAndDetect] stops at the first read that reports an error,
    [io.EOF] included: whatever the source would deliver afterwards
    changes neither the result nor the final state. *)
Theorem ReadAndDetect_stops_at_first_error before rd rest s :
  rd_err rd <> None ->
  ReadAndDetect (before ++ rd :: rest) s = ReadAndDetect (before ++ [rd]) s.
Proof.
  intros Herr. unfold ReadAndDetect, bind.
  destruct (initialize s) as [[] s0|]; [|done].
  by rewrite read_loop_stops_at_error.
Qed.

(** Reads that deliver nothing and report no error only sleep. *)
Lemma read_loop_polls n rest bytes s :
  read_loop (repeat {| rd_data := []; rd_err := None |} n ++ rest) bytes s
  = read_loop rest bytes
      {| det := det s;
         log := log s ++ repeat (EvSleep (300 * time_Millisecond)) n |}.
Proof.
  revert s. induction n as [|n IH]; intros s; simpl.
  - rewrite app_nil_r. by destruct s.
  - assert (read_into bytes [] = bytes) as ->.
    { unfold read_into, read_n. by rewrite firstn_nil. }
    assert (read_n bytes [] = 0%nat) as ->.
    { unfold read_n. by rewrite firstn_nil. }
    simpl. unfold bind, emit. rewrite IH. simpl.
    by rewrite <- app_assoc.
Qed.

(** X21: while the source delivers no bytes and no error,
    [ReadAndDetect] only waits: [n] such reads cost [n] sleeps of 300
    ms, call neither the engine nor a handler, leave the detector as
    initialization made it, and the loop goes on with the rest of the
    source as if they had not happened. *)
Theorem ReadAndDetect_polls n rest s :
  exists s0,
    initialize s = Ok tt s0
    /\ ReadAndDetect (repeat {| rd_data := []; rd_err := None |} n ++ rest) s
       = read_loop rest (repeat x00 2048)
           {| det := det s0;
              log := log s ++ repeat (EvSleep (300 * time_Millisecond)) n |}.
Proof.
  destruct (initialize_returns s) as (s0 & Hinit & _ & Hlog).
  exists s0. split; [exact Hinit|].
  unfold ReadAndDetect, bind. rewrite Hinit, read_loop_polls. by rewrite Hlog.
Qed.

End Outcomes.

Lemma ReadAndDetect_stops_at_first_error_witness :
  let failing : read_result :=
    {| rd_data := []; rd_err := Some (errors_New "device lost") |} in
  @ReadAndDetect unit half_second_silence
    [failing; {| rd_data := [x01; x02]; rd_err := None |}] (fresh one_hotword)
  = @ReadAndDetect unit half_second_silence [failing] (fresh one_hotword).
Proof.
  intros failing.
  apply (@ReadAndDetect_stops_at_first_error unit half_second_silence
           [] failing [ {| rd_data := [x01; x02]; rd_err := None |} ]
           (fresh one_hotword)).
  discriminate.
Defined.
